(** * hh-validator: the validate endpoint and its error-summary extraction

    A shallow embedding of the request handler [validateFiles] of
    [server/main.go], of its second variant (the other server source of the
    repository, which initialises the hhfab directory before it stages the
    uploads and relays the tool's text as the message), and of
    [extractErrorMessage], followed by the properties of the specification
    that can be stated about them. *)

From stdpp Require Import base list strings gmap pretty.
From Stdlib Require Import ZArith Ascii Lia.

Local Open Scope string_scope.
Local Open Scope Z_scope.

(** ** Go strings: the functions of package [strings] the source calls

    A Go string is a sequence of bytes; [string] is a list of [ascii], one
    per byte. *)

Module GoStrings.

(** [len(s)] *)
Definition len (s : string) : Z := Z.of_nat (String.length s).

(** The line feed, the byte of the Go literal ["\n"]. *)
Definition LF : ascii := "010"%char.

(** [strings.HasPrefix(s, prefix)] *)
Definition HasPrefix (s prefix : string) : bool := String.prefix prefix s.

(** [strings.Index(s, substr)]: the byte offset of the first occurrence of
    [substr] in [s], or [-1]. *)
Fixpoint Index (s substr : string) : Z :=
  if HasPrefix s substr then 0
  else match s with
       | EmptyString => -1
       | String _ s' =>
           let i := Index s' substr in
           if i =? -1 then -1 else i + 1
       end.

(** [strings.Contains(s, substr)], which Go defines as
    [Index(s, substr) >= 0]. *)
Definition Contains (s substr : string) : bool := Index s substr >=? 0.

(** [strings.Split(s, sep)] for a separator of one byte, the only way the
    source calls it ([sep = "\n"]): the pieces between the separators, one
    more than there are separators. *)
Fixpoint Split (s : string) (sep : ascii) : list string :=
  match s with
  | EmptyString => [EmptyString]
  | String c s' =>
      if Ascii.eqb c sep then EmptyString :: Split s' sep
      else match Split s' sep with
           | [] => [String c EmptyString]
           | piece :: pieces => String c piece :: pieces
           end
  end.

(** The slice expression [s[i:]]. Go panics unless [0 <= i <= len(s)]
    ([slice_ok]); the one slice of the source is taken where [Index] found
    its substring and is within range ([marker_slice_ok] below). *)
Fixpoint drop_bytes (n : nat) (s : string) : string :=
  match n, s with
  | O, _ => s
  | S n', String _ s' => drop_bytes n' s'
  | S _, EmptyString => EmptyString
  end.

Definition slice_ok (s : string) (i : Z) : bool :=
  (0 <=? i) && (i <=? len s).

Definition slice_from (s : string) (i : Z) : string :=
  drop_bytes (Z.to_nat i) s.

(** *** [strings.TrimSpace]

    TrimSpace removes leading and trailing white space as Unicode defines
    it ([unicode.IsSpace]): the six ASCII characters tab, line feed,
    vertical tab, form feed, carriage return and space, and the code
    points U+0085, U+00A0, U+1680, U+2000..U+200A, U+2028, U+2029,
    U+202F, U+205F and U+3000, here in their UTF-8 encodings. A byte
    sequence that is not the encoding of one of them decodes to a rune
    that is not a space and ends the trimming. *)

Definition bytes (l : list nat) : string :=
  String.string_of_list_ascii (List.map ascii_of_nat l).

Definition space_runes : list string :=
  List.map bytes
    [ [0x09]; [0x0A]; [0x0B]; [0x0C]; [0x0D]; [0x20];
      [0xC2; 0x85]; [0xC2; 0xA0]; [0xE1; 0x9A; 0x80];
      [0xE2; 0x80; 0x80]; [0xE2; 0x80; 0x81]; [0xE2; 0x80; 0x82];
      [0xE2; 0x80; 0x83]; [0xE2; 0x80; 0x84]; [0xE2; 0x80; 0x85];
      [0xE2; 0x80; 0x86]; [0xE2; 0x80; 0x87]; [0xE2; 0x80; 0x88];
      [0xE2; 0x80; 0x89]; [0xE2; 0x80; 0x8A]; [0xE2; 0x80; 0xA8];
      [0xE2; 0x80; 0xA9]; [0xE2; 0x80; 0xAF]; [0xE2; 0x81; 0x9F];
      [0xE3; 0x80; 0x80] ]%nat.

Fixpoint rev_string (s : string) : string :=
  match s with
  | EmptyString => EmptyString
  | String c s' => rev_string s' +:+ String c EmptyString
  end.

(** The number of bytes of the space rune [s] starts with, [0] when it
    starts with none. *)
Definition leading_space (runes : list string) (s : string) : nat :=
  match List.find (fun r => HasPrefix s r) runes with
  | Some r => String.length r
  | None => O
  end.

Fixpoint trim_left (fuel : nat) (runes : list string) (s : string) : string :=
  match fuel with
  | O => s
  | S fuel' =>
      match leading_space runes s with
      | O => s
      | k => trim_left fuel' runes (drop_bytes k s)
      end
  end.

(** [strings.TrimLeftFunc(s, unicode.IsSpace)] *)
Definition TrimLeftSpace (s : string) : string :=
  trim_left (String.length s) space_runes s.

(** [strings.TrimRightFunc(s, unicode.IsSpace)]: the same scan from the
    end, on the reversed bytes. *)
Definition TrimRightSpace (s : string) : string :=
  rev_string
    (trim_left (String.length s) (List.map rev_string space_runes)
       (rev_string s)).

Definition TrimSpace (s : string) : string :=
  TrimRightSpace (TrimLeftSpace s).

End GoStrings.

(** ** [extractErrorMessage] *)

Import GoStrings.

(** The string of the [return] after the loop. *)
Definition unknownValidationError : string := "Unknown validation error".

(** The body of [for _, line := range lines]. *)
Fixpoint extract_loop (lines : list string) : string :=
  match lines with
  | [] => unknownValidationError
  | line :: rest =>
      if Contains line "ERR" then
        let idx := Index line "ERR " in
        if negb (idx =? -1) then TrimSpace (slice_from line (idx + 4))
        else extract_loop rest
      else extract_loop rest
  end.

Definition extractErrorMessage (output : string) : string :=
  let lines := Split output LF in
  extract_loop lines.

(** ** UTF-8 as the JSON encoder sees it

    [encoding/json] writes a Go string as a JSON string of valid UTF-8:
    it decodes the bytes with [utf8.DecodeRuneInString], and where that
    gives [(RuneError, 1)], a byte that starts no valid encoding, it
    writes U+FFFD in place of the byte. (The characters it writes as
    escapes denote themselves and do not change the value.) *)

Module UTF8.

Definition between (lo hi : nat) (c : ascii) : bool :=
  (lo <=? nat_of_ascii c)%nat && (nat_of_ascii c <=? hi)%nat.

(** A continuation byte, [0x80 .. 0xBF]. *)
Definition continuation (c : ascii) : bool := between 0x80 0xBF c.

(** The range [acceptRanges] allows for the second byte after the first
    byte [b0] of an encoding of three or four bytes. *)
Definition second_byte (b0 : nat) (c : ascii) : bool :=
  if (b0 =? 0xE0)%nat then between 0xA0 0xBF c
  else if (b0 =? 0xED)%nat then between 0x80 0x9F c
  else if (b0 =? 0xF0)%nat then between 0x90 0xBF c
  else if (b0 =? 0xF4)%nat then between 0x80 0x8F c
  else continuation c.

(** The number of bytes of the valid encoding [s] starts with; [0] where
    [utf8.DecodeRuneInString] gives [(RuneError, 1)] (and for the empty
    string). *)
Definition rune_size (s : string) : nat :=
  match s with
  | EmptyString => 0
  | String b0 s1 =>
      let x := nat_of_ascii b0 in
      if (x <? 0x80)%nat then 1
      else if (x <? 0xC2)%nat then 0
      else if (x <? 0xE0)%nat then
        match s1 with
        | String b1 _ => if continuation b1 then 2 else 0
        | _ => 0
        end
      else if (x <? 0xF0)%nat then
        match s1 with
        | String b1 (String b2 _) =>
            if second_byte x b1 && continuation b2 then 3 else 0
        | _ => 0
        end
      else if (x <? 0xF5)%nat then
        match s1 with
        | String b1 (String b2 (String b3 _)) =>
            if second_byte x b1 && continuation b2 && continuation b3
            then 4 else 0
        | _ => 0
        end
      else 0
  end%nat.

Fixpoint take_bytes (n : nat) (s : string) : string :=
  match n, s with
  | S n', String c s' => String c (take_bytes n' s')
  | _, _ => EmptyString
  end.

(** U+FFFD, the replacement character, in UTF-8. *)
Definition replacement : string := GoStrings.bytes [0xEF; 0xBF; 0xBD]%nat.

Fixpoint to_valid (fuel : nat) (s : string) : string :=
  match fuel, s with
  | S fuel', String _ s' =>
      match rune_size s with
      | O => replacement +:+ to_valid fuel' s'
      | k => take_bytes k s +:+ to_valid fuel' (GoStrings.drop_bytes k s)
      end
  | _, _ => EmptyString
  end.

(** The value of the JSON string the encoder writes for [s]. *)
Definition ToValidUTF8 (s : string) : string := to_valid (String.length s) s.

Fixpoint valid (fuel : nat) (s : string) : bool :=
  match s with
  | EmptyString => true
  | String _ _ =>
      match fuel with
      | O => false
      | S fuel' =>
          match rune_size s with
          | O => false
          | k => valid fuel' (GoStrings.drop_bytes k s)
          end
      end
  end.

(** [utf8.ValidString(s)] *)
Definition ValidString (s : string) : bool := valid (String.length s) s.

End UTF8.

(** ** The data of the handler *)

Record ValidateResponse := {
  Success : bool;
  Message : string;
  Output : string;
  UseCase : string;
  Error : string
}.

(** What [c.JSON] writes for a [ValidateResponse]: the fields in the order
    of the struct, under the names of their [json] tags; the tag of [Error]
    is [omitempty], so the field is left out when the string is empty. A
    [JString] holds the value of the JSON string that is written, the Go
    string made valid UTF-8. *)
Inductive JSONValue :=
| JBool (b : bool)
| JString (s : string).

Definition marshal (r : ValidateResponse) : list (string * JSONValue) :=
  [ ("success", JBool (Success r));
    ("message", JString (UTF8.ToValidUTF8 (Message r)));
    ("output", JString (UTF8.ToValidUTF8 (Output r)));
    ("use_case", JString (UTF8.ToValidUTF8 (UseCase r))) ]
  ++ (if String.eqb (Error r) EmptyString then []
      else [("error", JString (UTF8.ToValidUTF8 (Error r)))]).

Fixpoint field (name : string) (obj : list (string * JSONValue)) : option JSONValue :=
  match obj with
  | [] => None
  | (k, v) :: obj' => if String.eqb k name then Some v else field name obj'
  end.

Definition Version : string := "1.0.0".
Definition MaxFileSize : Z := 10 * 1024 * 1024.
Definition TimeoutSec : Z := 30.

Definition StatusOK : Z := 200.
Definition StatusBadRequest : Z := 400.
Definition StatusInternalServerError : Z := 500.

(** An uploaded file, [*multipart.FileHeader]. *)
Record FileHeader := {
  Filename : string;
  Content : string
}.

(** [multipart.Form]: the files of the form, by field name. *)
Record Form := {
  File : gmap string (list FileHeader)
}.

(** [form.File[key]]: a key that is not in a Go map yields the nil slice. *)
Definition files (form : Form) (key : string) : list FileHeader :=
  default [] (File form !! key).

(** [*exec.Cmd] as [exec.Command] builds it, with its [Dir] field. *)
Record Cmd := {
  Path : string;
  Args : list string;
  Dir : string
}.

Definition Command (name : string) (args : list string) : Cmd :=
  {| Path := name; Args := args; Dir := EmptyString |}.

Definition withDir (cmd : Cmd) (dir : string) : Cmd :=
  {| Path := Path cmd; Args := Args cmd; Dir := dir |}.

(** What a run of a subprocess comes to: the bytes it wrote to stdout and
    stderr, the error of [CombinedOutput] ([None] is [nil]: the process
    started and exited with status 0), and the seconds it ran. *)
Record CmdResult := {
  Combined : string;
  Err : option string;
  Elapsed : nat
}.

(** A Go result [(value, error)]. *)
Inductive result (A : Type) :=
| Ok (a : A)
| Fail (err : string).
Arguments Ok {A} a.
Arguments Fail {A} err.

(** The surroundings of one request: what the request and the operating
    system answer to each call of the handler. The handler makes no call
    twice with the same arguments, so an answer per argument is as general
    as an answer per call. *)
Record World := {
  MultipartForm : result Form;
  MkdirTemp : string -> string -> result string;
  MkdirAll : string -> option string;
  Remove : string -> option string;
  SaveUploadedFile : FileHeader -> string -> option string;
  CombinedOutput : Cmd -> CmdResult
}.

(** The calls the handler makes outside itself, in order, each with what
    came back. *)
Inductive Event :=
| MkdirTempEv (dir pattern : string) (res : result string)
| MkdirAllEv (path : string) (err : option string)
| RemoveEv (path : string) (err : option string)
| RemoveAllEv (path : string)
| SaveEv (file : FileHeader) (dst : string) (err : option string)
| ExecEv (cmd : Cmd) (res : CmdResult).

(** ** The handler monad

    A step of the handler reads the world, extends the trace of calls and
    either goes on with a value, or has answered with [c.JSON] and returned,
    or has panicked (an index out of range). *)
Inductive Outcome (A : Type) :=
| Replied (status : Z) (body : ValidateResponse)
| Panicked
| Value (a : A).
Arguments Replied {A} status body.
Arguments Panicked {A}.
Arguments Value {A} a.

Definition Handler (A : Type) : Type :=
  World -> list Event -> list Event * Outcome A.

Definition ret {A} (a : A) : Handler A := fun _ tr => (tr, Value a).

Definition bind {A B} (m : Handler A) (k : A -> Handler B) : Handler B :=
  fun w tr =>
    match m w tr with
    | (tr', Value a) => k a w tr'
    | (tr', Replied status body) => (tr', Replied status body)
    | (tr', Panicked) => (tr', Panicked)
    end.

Notation "x <- m ;; k" := (bind m (fun x => k))
  (at level 100, m at next level, right associativity).

(** [c.JSON(status, body); return] *)
Definition JSON {A} (status : Z) (body : ValidateResponse) : Handler A :=
  fun _ tr => (tr, Replied status body).

Definition panic {A} : Handler A := fun _ tr => (tr, Panicked).

(** A call: its event goes to the end of the trace and the world answers. *)
Definition call {A} (ev : A -> Event) (answer : World -> A) : Handler A :=
  fun w tr => let a := answer w in ((tr ++ [ev a])%list, Value a).

Definition c_MultipartForm : Handler (result Form) :=
  fun w tr => (tr, Value (MultipartForm w)).

Definition os_MkdirTemp (dir pattern : string) : Handler (result string) :=
  call (MkdirTempEv dir pattern) (fun w => MkdirTemp w dir pattern).

Definition os_MkdirAll (path : string) : Handler (option string) :=
  call (MkdirAllEv path) (fun w => MkdirAll w path).

Definition os_Remove (path : string) : Handler (option string) :=
  call (RemoveEv path) (fun w => Remove w path).

Definition c_SaveUploadedFile (file : FileHeader) (dst : string) : Handler (option string) :=
  call (SaveEv file dst) (fun w => SaveUploadedFile w file dst).

(** [cmd.CombinedOutput()]: [exec.Command] gives the command no context and
    no deadline, so the call returns when the process has exited. *)
Definition cmd_CombinedOutput (cmd : Cmd) : Handler CmdResult :=
  call (ExecEv cmd) (fun w => CombinedOutput w cmd).

(** [defer os.RemoveAll(path)]: the call is made when the rest of the
    function has returned, however it returned. *)
Definition defer_RemoveAll {A} (path : string) (rest : Handler A) : Handler A :=
  fun w tr => let (tr', o) := rest w tr in ((tr' ++ [RemoveAllEv path])%list, o).

(** [s[0]] of a slice. *)
Definition first {A B} (s : list A) (k : A -> Handler B) : Handler B :=
  match s !! 0%nat with
  | Some a => k a
  | None => panic
  end.

(** [filepath.Clean(path)] with the separator of Unix. The path is taken
    element by element: an empty element and [.] are dropped; [..] takes
    the element before it away when that is a name, is dropped at the root,
    and stays where a path that is not rooted begins; a name is kept. The
    stack has the last element kept on top. The empty result is [.]. *)
Definition clean_step (rooted : bool) (stack : list string) (elem : string)
  : list string :=
  if String.eqb elem EmptyString then stack
  else if String.eqb elem "." then stack
  else if String.eqb elem ".." then
    match stack with
    | top :: rest =>
        if String.eqb top ".." then elem :: stack else rest
    | [] => if rooted then [] else [elem]
    end
  else elem :: stack.

Definition Clean (path : string) : string :=
  if String.eqb path EmptyString then "."
  else
    let rooted := HasPrefix path "/" in
    let stack := fold_left (clean_step rooted) (Split path "/"%char) [] in
    let kept := String.concat "/" (rev stack) in
    let out := if rooted then "/" +:+ kept else kept in
    if String.eqb out EmptyString then "." else out.

(** [filepath.Join(dir, name)]: the elements from the first that is not
    empty on, with the separator in between, cleaned; the empty string
    when both are empty. *)
Definition Join (dir name : string) : string :=
  if String.eqb dir EmptyString then
    if String.eqb name EmptyString then EmptyString else Clean name
  else Clean (dir +:+ "/" +:+ name).

(** The struct literal of the replies that name [Success], [Message] and
    [Error] only: the fields it leaves out are the empty string. *)
Definition failure (message error : string) : ValidateResponse :=
  {| Success := false; Message := message; Output := EmptyString;
     UseCase := EmptyString; Error := error |}.

(** The reply to a request without the required file, the same in both
    handlers. *)
Definition missingWiring : ValidateResponse :=
  failure "Missing required wiring file" "wiring file is required".

(** [if len(fabFiles) > 0 { useCase = "uc2" } else { useCase = "uc1" }] *)
Definition useCaseOf (fabFiles : list FileHeader) : string :=
  if (0 <? length fabFiles)%nat then "uc2" else "uc1".

(** ** [validateFiles] of [server/main.go] *)

Module Server.

(** From [hhfab validate] to the end of the function. *)
Definition runValidate (workDir useCase : string) : Handler Empty_set :=
  let validateCmd := withDir (Command "hhfab" ["validate"]) workDir in
  res <- cmd_CombinedOutput validateCmd ;;
  let outputStr := Combined res in
  match Err res with
  | Some err =>
      if Contains outputStr "ERR" then
        JSON StatusBadRequest
          {| Success := false; Message := "Validation failed";
             Output := outputStr; UseCase := useCase;
             Error := extractErrorMessage outputStr |}
      else
        JSON StatusInternalServerError
          {| Success := false; Message := "Failed to run validation";
             Output := outputStr; UseCase := useCase; Error := err |}
  | None =>
      JSON StatusOK
        {| Success := true;
           Message := "Fabricator config and wiring are valid";
           Output := outputStr; UseCase := useCase; Error := EmptyString |}
  end.

(** From the work directory to [hhfab init], then [runValidate]. *)
Definition runInit (tempDir useCase : string) (initArgs : list string)
  : Handler Empty_set :=
  let workDir := Join tempDir "work" in
  e <- os_MkdirAll workDir ;;
  match e with
  | Some err =>
      JSON StatusInternalServerError
        (failure "Failed to create work directory" err)
  | None =>
      let initCmd := withDir (Command "hhfab" initArgs) workDir in
      res <- cmd_CombinedOutput initCmd ;;
      match Err res with
      | Some err =>
          JSON StatusBadRequest
            {| Success := false; Message := "Failed to initialize hhfab";
               Output := Combined res; UseCase := useCase;
               Error := "hhfab init failed: " +:+ err |}
      | None => runValidate workDir useCase
      end
  end.

Definition validateFiles : Handler Empty_set :=
  r <- c_MultipartForm ;;
  match r with
  | Fail err =>
      JSON StatusBadRequest (failure "Failed to parse multipart form" err)
  | Ok form =>
      let wiringFiles := files form "wiring" in
      if (length wiringFiles =? 0)%nat then
        JSON StatusBadRequest missingWiring
      else
        let fabFiles := files form "fab" in
        let useCase := useCaseOf fabFiles in
        t <- os_MkdirTemp EmptyString "validator-*" ;;
        match t with
        | Fail err =>
            JSON StatusInternalServerError
              (failure "Failed to create temporary directory" err)
        | Ok tempDir =>
            defer_RemoveAll tempDir (
              first wiringFiles (fun wiringFile =>
              let wiringPath := Join tempDir "wiring.yaml" in
              e <- c_SaveUploadedFile wiringFile wiringPath ;;
              match e with
              | Some err =>
                  JSON StatusInternalServerError
                    (failure "Failed to save wiring file" err)
              | None =>
                  if String.eqb useCase "uc1" then
                    runInit tempDir useCase ["init"; "--dev"; "-w"; wiringPath]
                  else
                    first fabFiles (fun fabFile =>
                    let fabPath := Join tempDir "fab.yaml" in
                    e <- c_SaveUploadedFile fabFile fabPath ;;
                    match e with
                    | Some err =>
                        JSON StatusInternalServerError
                          (failure "Failed to save fab file" err)
                    | None =>
                        runInit tempDir useCase
                          ["init"; "-c"; fabPath; "-w"; wiringPath]
                    end)
              end))
        end
  end.

End Server.

(** ** [validateFiles] of the second server source

    The variant runs [hhfab init --dev] in the empty work directory, stages
    the wiring file under [include/], replaces the generated [fab.yaml] by
    the uploaded one, and answers a failed validation with the tool's text
    as the message. *)

Module ServerExact.

Definition runValidate (workDir useCase : string) : Handler Empty_set :=
  let validateCmd := withDir (Command "hhfab" ["validate"]) workDir in
  res <- cmd_CombinedOutput validateCmd ;;
  let outputStr := Combined res in
  match Err res with
  | Some err =>
      JSON StatusBadRequest
        {| Success := false; Message := outputStr; Output := outputStr;
           UseCase := useCase; Error := EmptyString |}
  | None =>
      JSON StatusOK
        {| Success := true; Message := outputStr; Output := outputStr;
           UseCase := useCase; Error := EmptyString |}
  end.

(** [if useCase == "uc2" { ... }] *)
Definition replaceFab (workDir useCase : string) (fabFiles : list FileHeader)
    (rest : Handler Empty_set) : Handler Empty_set :=
  if String.eqb useCase "uc2" then
    let defaultFabPath := Join workDir "fab.yaml" in
    e <- os_Remove defaultFabPath ;;
    match e with
    | Some err =>
        JSON StatusInternalServerError
          (failure "Failed to remove default fab.yaml" err)
    | None =>
        first fabFiles (fun fabFile =>
        let fabPath := Join workDir "fab.yaml" in
        e <- c_SaveUploadedFile fabFile fabPath ;;
        match e with
        | Some err =>
            JSON StatusInternalServerError
              (failure "Failed to save fab file" err)
        | None => rest
        end)
    end
  else rest.

Definition stage (workDir useCase : string)
    (wiringFiles fabFiles : list FileHeader) : Handler Empty_set :=
  let includeDir := Join workDir "include" in
  e <- os_MkdirAll includeDir ;;
  match e with
  | Some err =>
      JSON StatusInternalServerError
        (failure "Failed to create include directory" err)
  | None =>
      first wiringFiles (fun wiringFile =>
      let wiringPath := Join includeDir "wiring.yaml" in
      e <- c_SaveUploadedFile wiringFile wiringPath ;;
      match e with
      | Some err =>
          JSON StatusInternalServerError
            (failure "Failed to save wiring file" err)
      | None =>
          replaceFab workDir useCase fabFiles (runValidate workDir useCase)
      end)
  end.

Definition validateFiles : Handler Empty_set :=
  r <- c_MultipartForm ;;
  match r with
  | Fail err =>
      JSON StatusBadRequest (failure "Failed to parse multipart form" err)
  | Ok form =>
      let wiringFiles := files form "wiring" in
      if (length wiringFiles =? 0)%nat then
        JSON StatusBadRequest missingWiring
      else
        let fabFiles := files form "fab" in
        let useCase := useCaseOf fabFiles in
        t <- os_MkdirTemp EmptyString "validator-*" ;;
        match t with
        | Fail err =>
            JSON StatusInternalServerError
              (failure "Failed to create temporary directory" err)
        | Ok tempDir =>
            defer_RemoveAll tempDir (
              let workDir := Join tempDir "work" in
              e <- os_MkdirAll workDir ;;
              match e with
              | Some err =>
                  JSON StatusInternalServerError
                    (failure "Failed to create work directory" err)
              | None =>
                  let initCmd :=
                    withDir (Command "hhfab" ["init"; "--dev"]) workDir in
                  res <- cmd_CombinedOutput initCmd ;;
                  match Err res with
                  | Some err =>
                      JSON StatusInternalServerError
                        {| Success := false;
                           Message := "Failed to initialize hhfab";
                           Output := Combined res; UseCase := useCase;
                           Error := "hhfab init failed: " +:+ err |}
                  | None => stage workDir useCase wiringFiles fabFiles
                  end
              end)
        end
  end.

End ServerExact.

(** ** Serving a request *)

(** What the client receives: the status and the body of [c.JSON]; [None]
    when the handler panicked. *)
Definition reply_of (o : Outcome Empty_set) : option (Z * ValidateResponse) :=
  match o with
  | Replied status body => Some (status, body)
  | Panicked => None
  | Value a => match a with end
  end.

(** A request served by a handler in a world: the calls it made and what it
    answered. *)
Definition serve (h : Handler Empty_set) (w : World)
  : list Event * option (Z * ValidateResponse) :=
  let (tr, o) := h w [] in (tr, reply_of o).

Definition trace (h : Handler Empty_set) (w : World) : list Event :=
  fst (serve h w).

Definition reply (h : Handler Empty_set) (w : World)
  : option (Z * ValidateResponse) :=
  snd (serve h w).

(** The two handlers of the repository. *)
Definition handlers : list (Handler Empty_set) :=
  [Server.validateFiles; ServerExact.validateFiles].

(** *** What a trace says *)

Definition is_exec (ev : Event) : bool :=
  match ev with ExecEv _ _ => true | _ => false end.

(** The creation of the temporary directory, or the writing of an uploaded
    file, failed. *)
Definition is_staging_failure (ev : Event) : bool :=
  match ev with
  | MkdirTempEv _ _ (Fail _) => true
  | SaveEv _ _ (Some _) => true
  | _ => false
  end.

Definition staging_failed (tr : list Event) : bool :=
  existsb is_staging_failure tr.

(** A subprocess was started. *)
Definition tool_invoked (tr : list Event) : bool := existsb is_exec tr.

(** The subcommand a call of hhfab ran: the first argument. *)
Definition is_hhfab (sub : string) (ev : Event) : bool :=
  match ev with
  | ExecEv cmd _ =>
      String.eqb (Path cmd) "hhfab" &&
      match Args cmd with
      | a :: _ => String.eqb a sub
      | [] => false
      end
  | _ => false
  end.

(** The run of [hhfab validate] of a trace, when there is one. *)
Fixpoint validate_run (tr : list Event) : option CmdResult :=
  match tr with
  | [] => None
  | ev :: tr' =>
      if is_hhfab "validate" ev then
        match ev with ExecEv _ res => Some res | _ => None end
      else validate_run tr'
  end.

(** The seconds the handler spent in [CombinedOutput] waiting for
    [hhfab validate]. *)
Definition validate_wait (tr : list Event) : option Z :=
  match validate_run tr with
  | Some res => Some (Z.of_nat (Elapsed res))
  | None => None
  end.


(** ** The extraction in the words of the specification

    The summary as the specification describes it: the first line that
    contains the marker followed by a space decides; the summary is what
    follows the first occurrence there, trimmed; without such a line it is
    the fixed string. *)

(** What follows the first occurrence of [marker] in [line], if there is
    one. *)
Fixpoint after_first (marker line : string) : option string :=
  if HasPrefix line marker then Some (drop_bytes (String.length marker) line)
  else match line with
       | EmptyString => None
       | String _ line' => after_first marker line'
       end.

Fixpoint summary_of_lines (lines : list string) : string :=
  match lines with
  | [] => unknownValidationError
  | line :: rest =>
      match after_first "ERR " line with
      | Some tail => TrimSpace tail
      | None => summary_of_lines rest
      end
  end.

Definition summary_by_first_marker (output : string) : string :=
  summary_of_lines (Split output LF).

(** No line of the text contains the marker token. *)
Definition no_marker_line (output : string) : bool :=
  forallb (fun line => negb (Contains line "ERR")) (Split output LF).

(** ** Requests and worlds to run the handlers on *)

Definition wiringUpload : FileHeader :=
  {| Filename := "wiring.yaml"; Content := "kind: Switch" |}.

Definition fabUpload : FileHeader :=
  {| Filename := "fab.yaml"; Content := "kind: Fabricator" |}.

(** A form with the wiring file only, and one with both files. *)
Definition wiringOnly : Form :=
  {| File := {[ "wiring" := [wiringUpload] ]} |}.

Definition bothFiles : Form :=
  {| File := <[ "fab" := [fabUpload] ]> {[ "wiring" := [wiringUpload] ]} |}.

Definition emptyForm : Form := {| File := ∅ |}.

(** A run that exits with status 0 after a second, and one that exits with
    status 1. *)
Definition exited0 (out : string) : CmdResult :=
  {| Combined := out; Err := None; Elapsed := 1 |}.

Definition exited1 (out : string) : CmdResult :=
  {| Combined := out; Err := Some "exit status 1"; Elapsed := 1 |}.

(** hhfab whose [init] succeeds and whose [validate] comes to [validate]. *)
Definition hhfab (validate : CmdResult) (cmd : Cmd) : CmdResult :=
  match Args cmd with
  | "validate" :: _ => validate
  | _ => exited0 EmptyString
  end.

(** A world where the file system works. *)
Definition world (form : Form) (validate : CmdResult) : World :=
  {| MultipartForm := Ok form;
     MkdirTemp := fun _ _ => Ok "/tmp/validator-1";
     MkdirAll := fun _ => None;
     Remove := fun _ => None;
     SaveUploadedFile := fun _ _ => None;
     CombinedOutput := hhfab validate |}.

(** The same with a temporary directory that cannot be created, and with
    uploads that cannot be written. *)
Definition worldNoTemp (form : Form) : World :=
  {| MultipartForm := Ok form;
     MkdirTemp := fun _ _ => Fail "mkdir /tmp: no space left on device";
     MkdirAll := fun _ => None;
     Remove := fun _ => None;
     SaveUploadedFile := fun _ _ => None;
     CombinedOutput := hhfab (exited0 EmptyString) |}.

Definition worldNoWrite (form : Form) : World :=
  {| MultipartForm := Ok form;
     MkdirTemp := fun _ _ => Ok "/tmp/validator-1";
     MkdirAll := fun _ => None;
     Remove := fun _ => None;
     SaveUploadedFile := fun _ _ => Some "write: no space left on device";
     CombinedOutput := hhfab (exited0 EmptyString) |}.

(** A world whose [hhfab validate] runs for [secs] seconds. *)
Definition worldSlow (secs : nat) : World :=
  world wiringOnly {| Combined := EmptyString; Err := None; Elapsed := secs |}.

Definition validOutput : string :=
  "06:37:39 INF Fabricator config and wiring are valid".

Definition errorOutput : string :=
  "06:38:17 ERR validating: some error occurred".

Definition crashOutput : string := "signal: killed".

(** ** The claims of the specification that the handlers do not meet,
    as predicates of a handler and a world *)

(** A failed [hhfab validate] is answered by the marker: with it a
    validation failure (400) that carries the extracted summary, without it
    a system error (500). *)
Definition marker_decides (h : Handler Empty_set) (w : World) : Prop :=
  forall res err,
    validate_run (trace h w) = Some res -> Err res = Some err ->
    exists status body,
      reply h w = Some (status, body) /\ Success body = false /\
      if Contains (Combined res) "ERR"
      then status = StatusBadRequest /\
           Error body = extractErrorMessage (Combined res)
      else status = StatusInternalServerError.

(** The tag of the reply to a request with the wiring file is ["uc1"]
    exactly without a fab file and ["uc2"] exactly with one. *)
Definition tag_follows_form (h : Handler Empty_set) (w : World) : Prop :=
  forall form,
    MultipartForm w = Ok form -> files form "wiring" <> [] ->
    exists status body,
      reply h w = Some (status, body) /\
      (UseCase body = "uc1" <-> files form "fab" = []) /\
      (UseCase body = "uc2" <-> files form "fab" <> []).

(** A failure to create the temporary directory or to write an upload is
    answered with an internal error, and no subprocess has been started. *)
Definition staging_failure_before_tool (h : Handler Empty_set) (w : World) : Prop :=
  staging_failed (trace h w) = true ->
  exists body,
    reply h w = Some (StatusInternalServerError, body) /\
    Success body = false /\
    tool_invoked (trace h w) = false.

(** The [error] field is there exactly when the request failed. *)
Definition error_iff_failure (h : Handler Empty_set) (w : World) : Prop :=
  exists status body,
    reply h w = Some (status, body) /\
    (Success body = false ->
       exists e, field "error" (marshal body) = Some (JString e) /\ e <> EmptyString) /\
    (Success body = true -> field "error" (marshal body) = None).

(** The [output] field of the JSON that is written is the captured
    output, byte for byte. *)
Definition output_field_verbatim (h : Handler Empty_set) (w : World) : Prop :=
  forall res,
    validate_run (trace h w) = Some res ->
    exists status body,
      reply h w = Some (status, body) /\
      field "output" (marshal body) = Some (JString (Combined res)).

(** An output with a byte that is not UTF-8: [ok], the byte [0xFF], and a
    line feed. *)
Definition binaryOutput : string :=
  "ok" +:+ bytes [0xFF; 0x0A]%nat.

(** A call to the file system failed: the temporary directory or a
    directory could not be made, an upload not written, a file not
    removed. *)
Definition is_workspace_failure (ev : Event) : bool :=
  match ev with
  | MkdirTempEv _ _ (Fail _) => true
  | MkdirAllEv _ (Some _) => true
  | RemoveEv _ (Some _) => true
  | SaveEv _ _ (Some _) => true
  | _ => false
  end.

Definition workspace_failed (tr : list Event) : bool :=
  existsb is_workspace_failure tr.

(** The errors of the world have a text: no call returns an error whose
    [Error()] is the empty string. *)
Definition errors_have_text (w : World) : Prop :=
  MultipartForm w <> Fail EmptyString /\
  (forall d p, MkdirTemp w d p <> Fail EmptyString) /\
  (forall p, MkdirAll w p <> Some EmptyString) /\
  (forall p, Remove w p <> Some EmptyString) /\
  (forall f p, SaveUploadedFile w f p <> Some EmptyString).

(** ** Running a handler in a world that is not known *)

(** The definitions are unfolded, and every answer of the world the run
    depends on is a case. *)
Ltac unfold_handler :=
  unfold reply, trace, serve,
    Server.validateFiles, Server.runInit, Server.runValidate,
    ServerExact.validateFiles, ServerExact.stage, ServerExact.replaceFab,
    ServerExact.runValidate,
    c_MultipartForm, os_MkdirTemp, os_MkdirAll, os_Remove,
    c_SaveUploadedFile, cmd_CombinedOutput, defer_RemoveAll, first, call,
    bind, JSON, panic, useCaseOf.

Ltac flat :=
  cbn [app length Nat.eqb Nat.ltb Nat.leb lookup list_lookup
       String.eqb Ascii.eqb Bool.eqb reply_of fst snd
       validate_run validate_wait is_hhfab staging_failed tool_invoked
       is_staging_failure is_exec existsb andb orb negb
       Path Args Dir withDir Command
       Success Message Output UseCase Error failure missingWiring].

Ltac case_world :=
  match goal with
  | |- context [MultipartForm ?w] => destruct (MultipartForm w) eqn:?
  | |- context [files ?form ?key] =>
      destruct (files form key) as [|? ?] eqn:?
  | |- context [MkdirTemp ?w ?d ?p] => destruct (MkdirTemp w d p) eqn:?
  | |- context [MkdirAll ?w ?p] => destruct (MkdirAll w p) eqn:?
  | |- context [Remove ?w ?p] => destruct (Remove w p) eqn:?
  | |- context [SaveUploadedFile ?w ?f ?p] =>
      destruct (SaveUploadedFile w f p) eqn:?
  | |- context [Err (CombinedOutput ?w ?c)] =>
      destruct (Err (CombinedOutput w c)) eqn:?
  | |- context [if Contains ?s ?m then _ else _] =>
      destruct (Contains s m) eqn:?
  end.

Ltac run_handler :=
  unfold_handler; flat; repeat (case_world; flat).

Ltac either_handler H :=
  destruct H as [<- | [<- | []]].

(** ** What a trace says, continued *)

(** The directory that [os.MkdirTemp] named, when it made one. *)
Fixpoint created_dir (tr : list Event) : option string :=
  match tr with
  | [] => None
  | MkdirTempEv _ _ (Ok dir) :: _ => Some dir
  | _ :: tr' => created_dir tr'
  end.

(** The paths [os.RemoveAll] was called on. *)
Definition removed_all (tr : list Event) : list string :=
  flat_map (fun ev => match ev with RemoveAllEv p => [p] | _ => [] end) tr.

(** The path a call writes to, removes or runs a command in. *)
Definition touched (ev : Event) : list string :=
  match ev with
  | MkdirTempEv _ _ _ => []
  | MkdirAllEv p _ => [p]
  | RemoveEv p _ => [p]
  | RemoveAllEv p => [p]
  | SaveEv _ dst _ => [dst]
  | ExecEv cmd _ => [Dir cmd]
  end.

(** [path] is [dir] or lies below it. *)
Definition inside (dir path : string) : bool :=
  String.eqb path dir || HasPrefix path (dir +:+ "/").

(** The subprocesses of a trace, and the uploads that were written. *)
Definition execs (tr : list Event) : list (Cmd * CmdResult) :=
  flat_map (fun ev => match ev with ExecEv c r => [(c, r)] | _ => [] end) tr.

Definition saved (tr : list Event) : list (FileHeader * string) :=
  flat_map (fun ev => match ev with SaveEv f dst None => [(f, dst)] | _ => [] end) tr.

(** The paths [os.Remove] was called on. *)
Definition removals (tr : list Event) : list string :=
  flat_map (fun ev => match ev with RemoveEv p _ => [p] | _ => [] end) tr.

(** The run of [hhfab init] of a trace, when there is one. *)
Fixpoint init_run (tr : list Event) : option (Cmd * CmdResult) :=
  match tr with
  | [] => None
  | ev :: tr' =>
      if is_hhfab "init" ev then
        match ev with ExecEv cmd res => Some (cmd, res) | _ => None end
      else init_run tr'
  end.

(** The same world with another form in the request. *)
Definition withForm (w : World) (form : Form) : World :=
  {| MultipartForm := Ok form;
     MkdirTemp := MkdirTemp w;
     MkdirAll := MkdirAll w;
     Remove := Remove w;
     SaveUploadedFile := SaveUploadedFile w;
     CombinedOutput := CombinedOutput w |}.

(** A form with more than one file under each name. *)
Definition manyFiles : Form :=
  {| File := <[ "fab" := [fabUpload; wiringUpload] ]>
               {[ "wiring" := [wiringUpload; fabUpload] ]} |}.

(** A world whose [hhfab init] exits with status 1. *)
Definition worldInitFails (form : Form) : World :=
  {| MultipartForm := Ok form;
     MkdirTemp := fun _ _ => Ok "/tmp/validator-1";
     MkdirAll := fun _ => None;
     Remove := fun _ => None;
     SaveUploadedFile := fun _ _ => None;
     CombinedOutput := fun _ => exited1 "06:38:17 ERR init: bad wiring" |}.

(** A world whose request cannot be parsed. *)
Definition worldNoForm : World :=
  {| MultipartForm := Fail "no multipart boundary param in Content-Type";
     MkdirTemp := fun _ _ => Ok "/tmp/validator-1";
     MkdirAll := fun _ => None;
     Remove := fun _ => None;
     SaveUploadedFile := fun _ _ => None;
     CombinedOutput := hhfab (exited0 EmptyString) |}.

(** The first element of a slice, when it has one. *)
Definition first_of {A} (s : list A) : option A := s !! 0%nat.

Ltac flat_trace :=
  cbn [flat_map app created_dir removed_all removals touched execs saved init_run
       is_hhfab String.eqb Ascii.eqb Bool.eqb andb orb negb last forallb
       Path Args Dir withDir Command fst snd first_of lookup list_lookup
       List.map hd].

Ltac run_trace :=
  unfold_handler; flat; repeat (case_world; flat); flat_trace.

(** ** Texts of several lines *)

(** [a] and [b] with a line feed in between. *)
Definition lines_of (a b : string) : string := a +:+ String LF b.

(** Some line of the text contains the marker and a space. *)
Definition has_marker_line (output : string) : bool :=
  existsb (fun line => Contains line "ERR ") (Split output LF).

(** The byte [c] occurs in [s]. *)
Fixpoint has_byte (c : ascii) (s : string) : bool :=
  match s with
  | EmptyString => false
  | String x s' => Ascii.eqb x c || has_byte c s'
  end.

(** The runes of a list have at least one byte each. *)
Definition nonempty_runes (runes : list string) : bool :=
  forallb (fun r => negb (String.eqb r EmptyString)) runes.

(** ** Paths

    A name is an element of a path that [filepath.Clean] keeps as it is:
    it is not empty, it is neither [.] nor [..], and it has no slash. *)
Definition plain_name (name : string) : bool :=
  negb (String.eqb name EmptyString) && negb (String.eqb name ".")
  && negb (String.eqb name "..") && negb (has_byte "/" name).

(** A directory whose path is clean, and is neither the root nor [.]:
    what [os.MkdirTemp] returns when the directory for temporary files is
    given by a clean path, as [/tmp] is. *)
Definition clean_dir (dir : string) : bool :=
  String.eqb (Clean dir) dir && negb (String.eqb dir "/")
  && negb (String.eqb dir ".").

(** The string fields of a response are valid UTF-8. *)
Definition valid_response (r : ValidateResponse) : bool :=
  UTF8.ValidString (Message r) && UTF8.ValidString (Output r)
  && UTF8.ValidString (UseCase r) && UTF8.ValidString (Error r).

(** ** The command-line client

    The client of the repository: it checks the two paths, puts the files
    into a multipart form, posts the form to [/validate], shows the answer
    and exits with 1 unless the answer says [success]. *)

Module Client.

(** The package variables the flags are bound to; [timeout] is a Go
    [int]. *)
Record Flags := {
  wiringFile : string;
  fabFile : string;
  serverURL : string;
  verbose : bool;
  timeout : Z
}.

Definition slash : ascii := "/"%char.

(** [strings.TrimRight(s, cutset)] for a cutset of one ASCII byte, which Go
    computes with the loop
    [for len(s) > 0 && s[len(s)-1] == c { s = s[:len(s)-1] }]. *)
Fixpoint drop_while_byte (c : ascii) (s : string) : string :=
  match s with
  | EmptyString => EmptyString
  | String x s' => if Ascii.eqb x c then drop_while_byte c s' else s
  end.

Definition TrimRight (s : string) (c : ascii) : string :=
  rev_string (drop_while_byte c (rev_string s)).

(** [filepath.Base(path)] with the separator of Unix: the last element of
    the path, after the trailing slashes are taken off; ["."] for the
    empty path and ["/"] for a path of slashes only. *)
Fixpoint take_until_byte (c : ascii) (s : string) : string :=
  match s with
  | EmptyString => EmptyString
  | String x s' =>
      if Ascii.eqb x c then EmptyString else String x (take_until_byte c s')
  end.

Definition Base (path : string) : string :=
  if String.eqb path EmptyString then "."
  else
    let path := TrimRight path slash in
    let path := rev_string (take_until_byte slash (rev_string path)) in
    if String.eqb path EmptyString then "/" else path.

(** The error of [os.Stat], as far as the client looks at it. *)
Inductive StatError :=
| ErrNotExist
| ErrOther.

(** [os.IsNotExist(err)] *)
Definition IsNotExist (err : option StatError) : bool :=
  match err with
  | Some ErrNotExist => true
  | _ => false
  end.

(** What the client hands to the multipart writer for a part: the field
    name and the file name it calls [CreateFormFile] with, and the bytes
    [io.Copy] writes. *)
Record Part := {
  FieldName : string;
  FileName : string;
  Data : string
}.

(** [time.Duration] is an [int64] of nanoseconds, and its arithmetic wraps
    around. *)
Definition wrap64 (x : Z) : Z := (x + 2 ^ 63) mod 2 ^ 64 - 2 ^ 63.

(** [time.Second] *)
Definition Second : Z := 1000000000.

(** [time.Duration(timeout) * time.Second] *)
Definition timeoutDuration (f : Flags) : Z := wrap64 (timeout f * Second).

(** The request [makeRequest] sends, with the [Timeout] of its client, in
    nanoseconds. *)
Record Request := {
  Method : string;
  URL : string;
  ContentType : string;
  Body : list Part;
  ClientTimeout : Z
}.

(** What came back: the status, and what [io.ReadAll] read of the body. *)
Record Response := {
  StatusCode : Z;
  Payload : result string
}.

(** The surroundings of a run of the client. [Open] is [os.Open] followed
    by [io.Copy]: the bytes of the file, or the error of either.
    [NewRequest] is the error of [http.NewRequest] for a URL. [Unmarshal]
    is [json.Unmarshal] into a [ValidateResponse]. *)
Record World := {
  Stat : string -> option StatError;
  Open : string -> result string;
  Boundary : string;
  NewRequest : string -> option string;
  Do : Request -> result Response;
  Unmarshal : string -> result ValidateResponse
}.

Definition nl : string := String LF EmptyString.

Definition validateInputFiles (w : World) (f : Flags) : option string :=
  if String.eqb (wiringFile f) EmptyString then
    Some "wiring file is required"
  else if IsNotExist (Stat w (wiringFile f)) then
    Some ("wiring file does not exist: " +:+ wiringFile f)
  else if negb (String.eqb (fabFile f) EmptyString) then
    if IsNotExist (Stat w (fabFile f)) then
      Some ("fab file does not exist: " +:+ fabFile f)
    else None
  else None.

(** [addFileToForm]: the part is written to a [bytes.Buffer], whose writes
    return no error, so the only errors are those of opening and reading
    the file. *)
Definition addFileToForm (w : World) (fieldName filename : string)
  : result Part :=
  match Open w filename with
  | Fail err => Fail err
  | Ok data =>
      Ok {| FieldName := fieldName; FileName := Base filename; Data := data |}
  end.

(** [writer.FormDataContentType()] *)
Definition FormDataContentType (w : World) : string :=
  "multipart/form-data; boundary=" +:+ Boundary w.

Definition createMultipartRequest (w : World) (f : Flags)
  : result (list Part * string) :=
  match addFileToForm w "wiring" (wiringFile f) with
  | Fail err => Fail ("failed to add wiring file: " +:+ err)
  | Ok wiring =>
      if negb (String.eqb (fabFile f) EmptyString) then
        match addFileToForm w "fab" (fabFile f) with
        | Fail err => Fail ("failed to add fab file: " +:+ err)
        | Ok fab => Ok ([wiring; fab], FormDataContentType w)
        end
      else Ok ([wiring], FormDataContentType w)
  end.

(** [strings.TrimRight(serverURL, "/") + "/validate"] *)
Definition endpoint (serverURL : string) : string :=
  TrimRight serverURL slash +:+ "/validate".

(** What a function of the client leaves behind: what it printed, the
    requests it sent and what it returned. *)
Record Did (A : Type) := {
  Printed : list string;
  Sent : list Request;
  Returned : A
}.
Arguments Printed {A} d.
Arguments Sent {A} d.
Arguments Returned {A} d.

Definition makeRequest (w : World) (f : Flags) (body : list Part)
    (contentType : string) : Did (result ValidateResponse) :=
  let url := endpoint (serverURL f) in
  match NewRequest w url with
  | Some err => {| Printed := []; Sent := []; Returned := Fail err |}
  | None =>
      let req := {| Method := "POST"; URL := url; ContentType := contentType;
                    Body := body; ClientTimeout := timeoutDuration f |} in
      let printed :=
        if verbose f then ["Making request to: " +:+ url +:+ nl] else [] in
      {| Printed := printed; Sent := [req];
         Returned :=
           match Do w req with
           | Fail err => Fail ("request failed: " +:+ err)
           | Ok resp =>
               match Payload resp with
               | Fail err => Fail ("failed to read response: " +:+ err)
               | Ok responseBody =>
                   match Unmarshal w responseBody with
                   | Fail err => Fail ("failed to parse response: " +:+ err)
                   | Ok response => Ok response
                   end
               end
           end |}
  end.

(** The marks of [displayResults], in UTF-8. *)
Definition checkMark : string := bytes [0xE2; 0x9C; 0x93]%nat.
Definition crossMark : string := bytes [0xE2; 0x9C; 0x97]%nat.

Definition displayResults (f : Flags) (response : ValidateResponse)
  : list string :=
  if Success response then
    [checkMark +:+ " " +:+ Message response +:+ nl]
    ++ (if verbose f then
          [nl +:+ "Use case: " +:+ UseCase response +:+ nl;
           "Output:" +:+ nl +:+ Output response +:+ nl]
        else [])
  else
    [crossMark +:+ " " +:+ Message response +:+ nl]
    ++ (if negb (String.eqb (Error response) EmptyString) then
          ["Error: " +:+ Error response +:+ nl]
        else [])
    ++ (if verbose f && negb (String.eqb (Output response) EmptyString) then
          [nl +:+ "Full output:" +:+ nl +:+ Output response +:+ nl]
        else [])
    ++ (if verbose f then
          [nl +:+ "Use case: " +:+ UseCase response +:+ nl]
        else []).

(** The lines of [if verbose { ... }] in [runValidate]. *)
Definition configuration (f : Flags) : list string :=
  ["Configuration:" +:+ nl;
   "  Wiring file: " +:+ wiringFile f +:+ nl]
  ++ (if negb (String.eqb (fabFile f) EmptyString) then
        ["  Fab file: " +:+ fabFile f +:+ nl]
      else [])
  ++ ["  Server URL: " +:+ serverURL f +:+ nl;
      "  Timeout: " +:+ pretty (timeout f) +:+ " seconds" +:+ nl;
      nl].

(** How [runValidate] ends: it returns an error, returns [nil], or calls
    [os.Exit(1)]. *)
Inductive Ending :=
| ReturnedError (err : string)
| ReturnedNil
| Exited1.

Definition runValidate (w : World) (f : Flags) : Did Ending :=
  match validateInputFiles w f with
  | Some err => {| Printed := []; Sent := []; Returned := ReturnedError err |}
  | None =>
      let shown := if verbose f then configuration f else [] in
      match createMultipartRequest w f with
      | Fail err =>
          {| Printed := shown; Sent := [];
             Returned := ReturnedError ("failed to create request: " +:+ err) |}
      | Ok (body, contentType) =>
          let made := makeRequest w f body contentType in
          match Returned made with
          | Fail err =>
              {| Printed := shown ++ Printed made; Sent := Sent made;
                 Returned :=
                   ReturnedError ("failed to make request: " +:+ err) |}
          | Ok response =>
              {| Printed := shown ++ Printed made ++ displayResults f response;
                 Sent := Sent made;
                 Returned :=
                   if negb (Success response) then Exited1 else ReturnedNil |}
          end
      end
  end.

(** The exit status of the process: [main] exits with 1 when [Execute]
    returns the error of [runValidate]. *)
Definition exitStatus (e : Ending) : Z :=
  match e with
  | ReturnedNil => 0
  | ReturnedError _ => 1
  | Exited1 => 1
  end.

(** The world with the status of every response changed by [g]. *)
Definition withStatus (g : Z -> Z) (w : World) : World :=
  {| Stat := Stat w; Open := Open w; Boundary := Boundary w;
     NewRequest := NewRequest w;
     Do := fun req =>
       match Do w req with
       | Ok resp => Ok {| StatusCode := g (StatusCode resp);
                          Payload := Payload resp |}
       | Fail err => Fail err
       end;
     Unmarshal := Unmarshal w |}.

(** A run of slashes. *)
Fixpoint slashes (n : nat) : string :=
  match n with
  | O => EmptyString
  | S n' => String slash (slashes n')
  end.

(** The last byte of a string. *)
Definition last_byte (s : string) : option ascii :=
  match rev_string s with
  | EmptyString => None
  | String c _ => Some c
  end.

(** A world and flags to run the client on. *)
Definition exampleWorld : World :=
  {| Stat := fun _ => None;
     Open := fun path => Ok ("kind: Switch # " +:+ path);
     Boundary := "b0undary";
     NewRequest := fun _ => None;
     Do := fun _ => Ok {| StatusCode := 400; Payload := Ok "{...}" |};
     Unmarshal := fun _ =>
       Ok {| Success := false; Message := "Validation failed";
             Output := "06:38:17 ERR validating: some error occurred";
             UseCase := "uc2";
             Error := "validating: some error occurred" |} |}.

Definition exampleFlags : Flags :=
  {| wiringFile := "/home/user/lab/wiring.yaml";
     fabFile := "fab.yaml";
     serverURL := "http://localhost:8080/";
     verbose := false;
     timeout := 30 |}.

End Client.

(** ** The mock of the test file

    [setupMockServer] of the tests routes [POST /validate] to a handler
    that checks the form as the servers do and then answers with a fixed
    output instead of running hhfab. *)

Module MockServer.

Definition mockOutput : string :=
  "06:37:39 INF Hedgehog Fabricator version=v0.40.0"
  +:+ String LF "06:37:39 INF Wiring hydrated successfully mode=if-not-present"
  +:+ String LF "06:37:39 INF Fabricator config and wiring are valid".

Definition validate : Handler Empty_set :=
  r <- c_MultipartForm ;;
  match r with
  | Fail err =>
      JSON StatusBadRequest (failure "Failed to parse multipart form" err)
  | Ok form =>
      let wiringFiles := files form "wiring" in
      if (length wiringFiles =? 0)%nat then
        JSON StatusBadRequest missingWiring
      else
        let fabFiles := files form "fab" in
        let useCase := if (0 <? length fabFiles)%nat then "uc2" else "uc1" in
        JSON StatusOK
          {| Success := true; Message := mockOutput; Output := mockOutput;
             UseCase := useCase; Error := EmptyString |}
  end.

End MockServer.

(** * Properties *)

(** ** The string functions *)

Section StringFacts.

Local Open Scope nat_scope.

Lemma length_append (s t : string) :
  String.length (s +:+ t) = String.length s + String.length t.
Proof. induction s as [|c s IH]; simpl; [reflexivity | now rewrite IH]. Qed.

Lemma rev_string_length (s : string) :
  String.length (rev_string s) = String.length s.
Proof.
  induction s as [|c s IH]; simpl; [reflexivity |].
  rewrite length_append, IH. simpl. lia.
Qed.

Lemma drop_bytes_length (n : nat) (s : string) :
  String.length (drop_bytes n s) = String.length s - n.
Proof.
  revert s. induction n as [|n IH]; intros [|c s]; simpl; auto with arith.
Qed.

Lemma trim_left_length (fuel : nat) (runes : list string) (s : string) :
  String.length (trim_left fuel runes s) <= String.length s.
Proof.
  revert s. induction fuel as [|fuel IH]; intros s; cbn [trim_left]; [lia |].
  destruct (leading_space runes s) as [|k]; [lia |].
  etransitivity; [apply IH |]. rewrite drop_bytes_length. lia.
Qed.

Lemma TrimSpace_length (s : string) :
  String.length (TrimSpace s) <= String.length s.
Proof.
  unfold TrimSpace, TrimRightSpace, TrimLeftSpace.
  rewrite rev_string_length.
  etransitivity; [apply trim_left_length |].
  rewrite rev_string_length. apply trim_left_length.
Qed.

Lemma HasPrefix_length (s p : string) :
  HasPrefix s p = true -> String.length p <= String.length s.
Proof.
  unfold HasPrefix. revert s.
  induction p as [|a p IH]; intros [|b s]; simpl; try lia; try discriminate.
  destruct (ascii_dec a b); [|discriminate].
  intros H. apply IH in H. lia.
Qed.

Lemma HasPrefix_app (s p q : string) :
  HasPrefix s (p +:+ q) = true -> HasPrefix s p = true.
Proof.
  unfold HasPrefix. revert s.
  induction p as [|a p IH]; intros [|b s]; simpl; try reflexivity;
    try discriminate.
  destruct (ascii_dec a b); [apply IH | discriminate].
Qed.

End StringFacts.

Section IndexFacts.

#[local] Arguments HasPrefix : simpl never.

Lemma Index_ge (s sub : string) : -1 <= Index s sub.
Proof.
  induction s as [|c s IH]; simpl.
  - destruct (HasPrefix EmptyString sub); lia.
  - destruct (HasPrefix (String c s) sub); [lia |].
    destruct (Z.eqb_spec (Index s sub) (-1)); lia.
Qed.

(** Where [Index] finds [sub], it lies within [s]. *)
Lemma Index_found (s sub : string) :
  Index s sub <> -1 -> 0 <= Index s sub /\ Index s sub + len sub <= len s.
Proof.
  unfold len. induction s as [|c s IH]; simpl.
  - destruct (HasPrefix EmptyString sub) eqn:E; [|congruence].
    apply HasPrefix_length in E. simpl in E. lia.
  - destruct (HasPrefix (String c s) sub) eqn:E.
    + apply HasPrefix_length in E. simpl in E. lia.
    + destruct (Z.eqb_spec (Index s sub) (-1)); [congruence |].
      intros _. specialize (IH n). lia.
Qed.

(** What contains [p] followed by [q] contains [p]. *)
Lemma Index_app (s p q : string) :
  Index s (p +:+ q) <> -1 -> Index s p <> -1.
Proof.
  induction s as [|c s IH]; simpl.
  - destruct (HasPrefix EmptyString (p +:+ q)) eqn:E; [|congruence].
    apply HasPrefix_app in E. rewrite E. discriminate.
  - destruct (HasPrefix (String c s) (p +:+ q)) eqn:E.
    + apply HasPrefix_app in E. rewrite E. discriminate.
    + destruct (Z.eqb_spec (Index s (p +:+ q)) (-1)); [congruence |].
      intros _. specialize (IH n).
      destruct (HasPrefix (String c s) p); [discriminate |].
      destruct (Z.eqb_spec (Index s p) (-1)); [contradiction |].
      pose proof (Index_ge s p). lia.
Qed.

Lemma Contains_Index (s sub : string) :
  Contains s sub = negb (Index s sub =? -1).
Proof.
  unfold Contains. pose proof (Index_ge s sub).
  destruct (Z.eqb_spec (Index s sub) (-1)) as [->|]; simpl; [reflexivity |].
  apply Z.geb_le. lia.
Qed.

Lemma Contains_app (s p q : string) :
  Contains s (p +:+ q) = true -> Contains s p = true.
Proof.
  rewrite !Contains_Index, !negb_true_iff, !Z.eqb_neq. apply Index_app.
Qed.

(** The slice [line[idx+4:]] of [extractErrorMessage] is within range. *)
Lemma marker_slice_ok (line : string) :
  Index line "ERR " <> -1 ->
  slice_ok line (Index line "ERR " + 4) = true.
Proof.
  intros H. apply Index_found in H. unfold slice_ok.
  change (len "ERR ") with 4 in H.
  apply andb_true_iff. split; apply Z.leb_le; lia.
Qed.

Lemma Split_length (sep : ascii) (s piece : string) :
  In piece (Split s sep) -> (String.length piece <= String.length s)%nat.
Proof.
  revert piece. induction s as [|c s IH]; simpl; intros piece.
  - intros [<-|[]]. reflexivity.
  - destruct (Ascii.eqb c sep).
    + intros [<-|H]; simpl; [lia | apply IH in H; lia].
    + destruct (Split s sep) as [|p ps].
      * intros [<-|[]]. simpl. lia.
      * intros [<-|H]; simpl.
        -- specialize (IH p (or_introl eq_refl)). lia.
        -- specialize (IH piece (or_intror H)). lia.
Qed.

End IndexFacts.

(** ** [extractErrorMessage] *)

Section Extraction.

#[local] Arguments HasPrefix : simpl never.
#[local] Arguments TrimSpace : simpl never.

Example extract_simple_error :
  extractErrorMessage "06:38:17 ERR validating: some error occurred"
  = "validating: some error occurred".
Proof. vm_compute. reflexivity. Qed.

Example extract_complex_error :
  extractErrorMessage
    "06:38:17 ERR validating: loading wiring and hydrating: loading wiring: object 48: decoding: yaml: line 17: could not find expected ':'"
  = "validating: loading wiring and hydrating: loading wiring: object 48: decoding: yaml: line 17: could not find expected ':'".
Proof. vm_compute. reflexivity. Qed.

Example extract_no_error :
  extractErrorMessage "06:37:39 INF Fabricator config and wiring are valid"
  = "Unknown validation error".
Proof. vm_compute. reflexivity. Qed.

(** A line with the marker and no space after it is passed over, and the
    first line with the marker and a space decides. *)
Example extract_skips_bare_marker :
  extractErrorMessage
    ("ERROR: x" +:+ String LF " 12 ERR  boom ERR bang " +:+ String LF "ERR later")
  = "boom ERR bang".
Proof. vm_compute. reflexivity. Qed.

Lemma after_first_Index (marker line : string) :
  after_first marker line =
  if Index line marker =? -1 then None
  else Some (slice_from line (Index line marker + len marker)).
Proof.
  unfold slice_from, len.
  induction line as [|c line IH]; cbn [after_first Index].
  - destruct (HasPrefix EmptyString marker); simpl; [|reflexivity].
    now rewrite Z.add_0_l, Nat2Z.id.
  - destruct (HasPrefix (String c line) marker); simpl.
    + now rewrite Z.add_0_l, Nat2Z.id.
    + rewrite IH. pose proof (Index_ge line marker).
      destruct (Z.eqb_spec (Index line marker) (-1)); simpl; [reflexivity |].
      destruct (Z.eqb_spec (Index line marker + 1) (-1)); [lia |].
      replace (Z.to_nat (Index line marker + 1 + Z.of_nat (String.length marker)))
        with (S (Z.to_nat (Index line marker + Z.of_nat (String.length marker))))
        by lia.
      reflexivity.
Qed.

(** One turn of the loop looks at the marker with its space only. *)
Lemma extract_loop_step (line : string) (rest : list string) :
  extract_loop (line :: rest) =
  if Contains line "ERR " then
    TrimSpace (slice_from line (Index line "ERR " + 4))
  else extract_loop rest.
Proof.
  cbn [extract_loop].
  destruct (Contains line "ERR ") eqn:E4.
  - rewrite (Contains_app line "ERR" " " E4).
    rewrite Contains_Index in E4. now rewrite E4.
  - rewrite Contains_Index in E4. rewrite E4.
    now destruct (Contains line "ERR").
Qed.

Lemma extract_loop_summary (lines : list string) :
  extract_loop lines = summary_of_lines lines.
Proof.
  induction lines as [|line rest IH]; [reflexivity |].
  rewrite extract_loop_step. cbn [summary_of_lines].
  rewrite after_first_Index, Contains_Index, IH.
  now destruct (Index line "ERR " =? -1).
Qed.

(** The summary is the fixed string, or it is at least four bytes
    shorter than one of the lines. *)
Lemma extract_loop_shorter (lines : list string) :
  extract_loop lines = unknownValidationError \/
  exists line, In line lines /\
    (String.length (extract_loop lines) + 4 <= String.length line)%nat.
Proof.
  induction lines as [|line rest IH]; [now left |].
  rewrite extract_loop_step.
  destruct (Contains line "ERR ") eqn:E; cbv iota.
  - right. exists line. split; [now left |].
    rewrite Contains_Index, negb_true_iff, Z.eqb_neq in E.
    apply Index_found in E. unfold len in E. simpl String.length in E.
    pose proof (TrimSpace_length (slice_from line (Index line "ERR " + 4))) as Ht.
    unfold slice_from in *. rewrite drop_bytes_length in Ht. lia.
  - destruct IH as [IH | (l & Hin & Hl)]; [now left |].
    right. exists l. split; [now right | exact Hl].
Qed.

(** The fixed string is the only text that is its own summary. *)
Lemma extract_fixed_point (r : string) :
  extractErrorMessage r = r -> r = unknownValidationError.
Proof.
  intros H. unfold extractErrorMessage in H.
  destruct (extract_loop_shorter (Split r LF)) as [E | (l & Hin & Hl)].
  - congruence.
  - apply Split_length in Hin. rewrite H in Hl. lia.
Qed.

End Extraction.

(** ** The summary in the words of the specification *)

Section AfterFirst.

#[local] Arguments HasPrefix : simpl never.

Lemma append_cons (c : ascii) (p t : string) :
  String c p +:+ t = String c (p +:+ t).
Proof. reflexivity. Qed.

Lemma HasPrefix_split (s p : string) :
  HasPrefix s p = true -> s = p +:+ drop_bytes (String.length p) s.
Proof.
  unfold HasPrefix. revert s.
  induction p as [|a p IH]; intros [|b s]; simpl; try reflexivity;
    try discriminate.
  destruct (ascii_dec a b) as [->|]; [|discriminate].
  intros H. rewrite append_cons. f_equal. apply IH, H.
Qed.

Lemma HasPrefix_append (p t : string) : HasPrefix (p +:+ t) p = true.
Proof.
  unfold HasPrefix. induction p as [|a p IH].
  - now destruct t.
  - rewrite append_cons. simpl.
    destruct (ascii_dec a a); [exact IH | contradiction].
Qed.

(** [after_first marker line] is what follows an occurrence of [marker]
    in [line], and no occurrence starts further to the left. *)
Lemma after_first_Some (marker line tail : string) :
  after_first marker line = Some tail ->
  exists pre,
    line = pre +:+ marker +:+ tail /\
    forall pre' tail',
      line = pre' +:+ marker +:+ tail' ->
      (String.length pre <= String.length pre')%nat.
Proof.
  revert tail. induction line as [|c line IH]; intros tail; cbn [after_first].
  - destruct (HasPrefix EmptyString marker) eqn:E; [|discriminate].
    intros [= <-]. exists EmptyString. split.
    + apply HasPrefix_split in E. exact E.
    + intros; simpl; lia.
  - destruct (HasPrefix (String c line) marker) eqn:E.
    + intros [= <-]. exists EmptyString. split.
      * apply HasPrefix_split in E. exact E.
      * intros; simpl; lia.
    + intros H. destruct (IH _ H) as (pre & -> & Hmin).
      exists (String c pre). split; [reflexivity |].
      intros [|c' pre'] tail' Heq.
      * change (EmptyString +:+ marker +:+ tail') with (marker +:+ tail') in Heq.
        rewrite Heq, HasPrefix_append in E. discriminate.
      * rewrite !append_cons in Heq. injection Heq as _ Heq.
        apply Hmin in Heq. simpl. lia.
Qed.

Lemma after_first_None (marker line : string) :
  after_first marker line = None ->
  forall pre tail, line <> pre +:+ marker +:+ tail.
Proof.
  induction line as [|c line IH]; cbn [after_first].
  - destruct (HasPrefix EmptyString marker) eqn:E; [discriminate |].
    intros _ [|c' pre] tail Heq; [|discriminate].
    change (EmptyString +:+ marker +:+ tail) with (marker +:+ tail) in Heq.
    rewrite Heq, HasPrefix_append in E. discriminate.
  - destruct (HasPrefix (String c line) marker) eqn:E; [discriminate |].
    intros H [|c' pre] tail Heq.
    + change (EmptyString +:+ marker +:+ tail) with (marker +:+ tail) in Heq.
      rewrite Heq, HasPrefix_append in E. discriminate.
    + rewrite append_cons in Heq. injection Heq as _ Heq.
      exact (IH H _ _ Heq).
Qed.

End AfterFirst.

(** ** The handlers *)

Section HandlerFacts.

(** Neither handler panics: every request is answered. *)
Lemma always_replies (h : Handler Empty_set) (w : World) :
  In h handlers ->
  exists status body, reply h w = Some (status, body).
Proof.
  intros Hh. either_handler Hh; run_handler; eauto.
Qed.

(** The requests of the test file that do not need hhfab's answer. *)
Example serve_without_wiring :
  reply Server.validateFiles (world emptyForm (exited0 validOutput))
  = Some (400, failure "Missing required wiring file" "wiring file is required").
Proof. vm_compute. reflexivity. Qed.

Example serve_valid_wiring :
  reply Server.validateFiles (world wiringOnly (exited0 validOutput))
  = Some (200, {| Success := true;
                  Message := "Fabricator config and wiring are valid";
                  Output := validOutput; UseCase := "uc1";
                  Error := EmptyString |}).
Proof. vm_compute. reflexivity. Qed.

Example serve_exact_both_files :
  reply ServerExact.validateFiles (world bothFiles (exited0 validOutput))
  = Some (200, {| Success := true; Message := validOutput;
                  Output := validOutput; UseCase := "uc2";
                  Error := EmptyString |}).
Proof. vm_compute. reflexivity. Qed.

(** The commands of a run of [server/main.go] with both files. *)
Example server_commands :
  List.filter is_exec
    (trace Server.validateFiles (world bothFiles (exited0 validOutput)))
  = [ ExecEv {| Path := "hhfab";
                Args := ["init"; "-c"; "/tmp/validator-1/fab.yaml";
                         "-w"; "/tmp/validator-1/wiring.yaml"];
                Dir := "/tmp/validator-1/work" |} (exited0 EmptyString);
      ExecEv {| Path := "hhfab"; Args := ["validate"];
                Dir := "/tmp/validator-1/work" |} (exited0 validOutput) ].
Proof. vm_compute. reflexivity. Qed.

End HandlerFacts.

(** ** UTF-8 *)

Section UTF8Facts.

Lemma take_drop_bytes (n : nat) (s : string) :
  UTF8.take_bytes n s +:+ drop_bytes n s = s.
Proof.
  revert s. induction n as [|n IH]; intros [|c s]; try reflexivity.
  cbn [UTF8.take_bytes drop_bytes]. rewrite append_cons. now rewrite IH.
Qed.

Lemma to_valid_valid (fuel : nat) (s : string) :
  UTF8.valid fuel s = true -> UTF8.to_valid fuel s = s.
Proof.
  revert s. induction fuel as [|fuel IH]; intros [|c s] H;
    try reflexivity; try discriminate.
  cbn [UTF8.valid] in H. cbn [UTF8.to_valid].
  destruct (UTF8.rune_size (String c s)) as [|k]; [discriminate |].
  rewrite (IH _ H). apply take_drop_bytes.
Qed.

(** What is valid UTF-8 is written as it is. *)
Lemma ToValidUTF8_valid (s : string) :
  UTF8.ValidString s = true -> UTF8.ToValidUTF8 s = s.
Proof. apply to_valid_valid. Qed.

End UTF8Facts.

(** * The claims of the specification *)

(** C1, as amended. When [hhfab validate] has run, the [Output] of the
    response is the combined output the run produced, byte for byte,
    whether the validation succeeded or failed, in both handlers. The
    [output] field of the JSON that is written holds that text made valid
    UTF-8, each byte that is part of no valid encoding replaced by U+FFFD:
    it is the captured text where that is valid UTF-8. *)
Theorem output_relayed (h : Handler Empty_set) (w : World) (res : CmdResult) :
  In h handlers ->
  validate_run (trace h w) = Some res ->
  exists status body,
    reply h w = Some (status, body) /\
    Output body = Combined res /\
    field "output" (marshal body)
      = Some (JString (UTF8.ToValidUTF8 (Combined res))) /\
    (UTF8.ValidString (Combined res) = true ->
     field "output" (marshal body) = Some (JString (Combined res))).
Proof.
  intros Hh. either_handler Hh; run_handler; intros; simplify_eq;
    eexists _, _; (split; [reflexivity |]); (split; [reflexivity |]);
    (split; [reflexivity |]);
    intros Hv; cbn [marshal field app String.eqb Ascii.eqb Bool.eqb Output];
    now rewrite (ToValidUTF8_valid _ Hv).
Qed.

Lemma output_relayed_witness :
  In Server.validateFiles handlers /\
  validate_run (trace Server.validateFiles (world bothFiles (exited1 errorOutput)))
    = Some (exited1 errorOutput) /\
  UTF8.ValidString errorOutput = true /\
  exists status body,
    reply Server.validateFiles (world bothFiles (exited1 errorOutput))
      = Some (status, body) /\
    Output body = errorOutput /\
    field "output" (marshal body) = Some (JString errorOutput).
Proof.
  assert (Hh : In Server.validateFiles handlers) by (left; reflexivity).
  assert (Hv : validate_run
                 (trace Server.validateFiles (world bothFiles (exited1 errorOutput)))
               = Some (exited1 errorOutput)) by (vm_compute; reflexivity).
  assert (Hu : UTF8.ValidString errorOutput = true) by (vm_compute; reflexivity).
  split; [exact Hh |]. split; [exact Hv |]. split; [exact Hu |].
  destruct (output_relayed _ _ _ Hh Hv) as (status & body & Hr & Ho & _ & Hf).
  exists status, body. split; [exact Hr |]. split; [exact Ho |].
  exact (Hf Hu).
Defined.

(** An output with the byte [0xFF] is written with U+FFFD in its place:
    the [output] field is not the captured text. *)
Lemma output_field_not_verbatim :
  ~ output_field_verbatim Server.validateFiles
      (world wiringOnly (exited0 binaryOutput)).
Proof.
  intros H.
  destruct (H (exited0 binaryOutput)) as (status & body & Hr & Hf).
  - vm_compute. reflexivity.
  - vm_compute in Hr. injection Hr as _ <-.
    vm_compute in Hf. discriminate Hf.
Qed.

(** C2, as amended. When [hhfab validate] fails, [server/main.go] answers
    by the marker: with ["ERR"] in the output a validation failure, status
    400 with the extracted summary as the error, and without it a system
    error, status 500. The second handler answers every failed validation
    with status 400, the output as the message and no error, whatever the
    output contains. *)
Theorem failed_validation_replies (w : World) :
  marker_decides Server.validateFiles w /\
  (forall res err,
     validate_run (trace ServerExact.validateFiles w) = Some res ->
     Err res = Some err ->
     exists useCase,
       reply ServerExact.validateFiles w =
         Some (StatusBadRequest,
               {| Success := false; Message := Combined res;
                  Output := Combined res; UseCase := useCase;
                  Error := EmptyString |})).
Proof.
  split.
  - unfold marker_decides. run_handler; intros; simplify_eq;
      eexists _, _; (split; [reflexivity |]); (split; [reflexivity |]);
      match goal with
      | H : Contains _ _ = _ |- _ => rewrite H
      end; auto.
  - run_handler; intros; simplify_eq; eauto.
Qed.

Lemma failed_validation_replies_witness :
  (exists status body,
     reply Server.validateFiles (world bothFiles (exited1 errorOutput))
       = Some (status, body) /\
     Success body = false /\
     status = StatusBadRequest /\
     Error body = "validating: some error occurred") /\
  (exists status body,
     reply Server.validateFiles (world bothFiles (exited1 crashOutput))
       = Some (status, body) /\
     Success body = false /\
     status = StatusInternalServerError) /\
  (exists useCase,
     reply ServerExact.validateFiles (world bothFiles (exited1 crashOutput))
       = Some (StatusBadRequest,
               {| Success := false; Message := crashOutput;
                  Output := crashOutput; UseCase := useCase;
                  Error := EmptyString |})).
Proof.
  assert (He : forall out, Err (exited1 out) = Some "exit status 1")
    by reflexivity.
  split; [| split].
  - destruct (failed_validation_replies (world bothFiles (exited1 errorOutput)))
      as [Hmain _].
    destruct (Hmain (exited1 errorOutput) "exit status 1")
      as (status & body & Hr & Hs & Hm);
      [vm_compute; reflexivity | apply He |].
    change (Contains (Combined (exited1 errorOutput)) "ERR") with true in Hm.
    destruct Hm as [Hst Herr].
    exists status, body. repeat split; assumption.
  - destruct (failed_validation_replies (world bothFiles (exited1 crashOutput)))
      as [Hmain _].
    destruct (Hmain (exited1 crashOutput) "exit status 1")
      as (status & body & Hr & Hs & Hm);
      [vm_compute; reflexivity | apply He |].
    change (Contains (Combined (exited1 crashOutput)) "ERR") with false in Hm.
    exists status, body. repeat split; assumption.
  - destruct (failed_validation_replies (world bothFiles (exited1 crashOutput)))
      as [_ Hexact].
    apply (Hexact (exited1 crashOutput) "exit status 1");
      [vm_compute; reflexivity | apply He].
Defined.

(** The second handler answers a failed validation whose output has no
    marker with status 400: the marker does not decide there. *)
Lemma exact_handler_ignores_marker :
  ~ marker_decides ServerExact.validateFiles
      (world wiringOnly (exited1 crashOutput)).
Proof.
  intros H.
  destruct (H (exited1 crashOutput) "exit status 1") as (status & body & Hr & _ & Hm).
  - vm_compute. reflexivity.
  - reflexivity.
  - change (Contains (Combined (exited1 crashOutput)) "ERR") with false in Hm.
    vm_compute in Hr. rewrite Hm in Hr. discriminate Hr.
Qed.

(** C3. A request whose form has no wiring file is answered with status
    400, [success] false and the message that the required wiring file is
    missing, and the handler has made no call at all: no temporary
    directory, no hhfab. *)
Theorem missing_wiring_rejected (h : Handler Empty_set) (w : World) (form : Form) :
  In h handlers ->
  MultipartForm w = Ok form ->
  files form "wiring" = [] ->
  serve h w =
    ([], Some (StatusBadRequest,
               {| Success := false;
                  Message := "Missing required wiring file";
                  Output := EmptyString; UseCase := EmptyString;
                  Error := "wiring file is required" |})).
Proof.
  intros Hh Hf Hw. either_handler Hh; unfold_handler; rewrite Hf, Hw; reflexivity.
Qed.

Lemma missing_wiring_rejected_witness :
  serve ServerExact.validateFiles (world emptyForm (exited0 validOutput)) =
    ([], Some (StatusBadRequest,
               {| Success := false;
                  Message := "Missing required wiring file";
                  Output := EmptyString; UseCase := EmptyString;
                  Error := "wiring file is required" |})).
Proof.
  apply (missing_wiring_rejected ServerExact.validateFiles
           (world emptyForm (exited0 validOutput)) emptyForm).
  - right. left. reflexivity.
  - reflexivity.
  - vm_compute. reflexivity.
Defined.

(** C4, as amended. For a request with the wiring file: where a call to
    the file system failed, the temporary directory, a directory, the writing
    of an upload or the removal of the default [fab.yaml], the reply carries
    no tag; every other reply, that to a failed [hhfab init], to a failed
    [hhfab validate] and to a success, carries the tag ["uc1"] exactly when
    the form has no fab file and ["uc2"] exactly when it has one. *)
Theorem use_case_tag_of_replies
    (h : Handler Empty_set) (w : World) (form : Form) :
  In h handlers ->
  MultipartForm w = Ok form ->
  files form "wiring" <> [] ->
  exists status body,
    reply h w = Some (status, body) /\
    (workspace_failed (trace h w) = true -> UseCase body = EmptyString) /\
    (workspace_failed (trace h w) = false ->
       (UseCase body = "uc1" <-> files form "fab" = []) /\
       (UseCase body = "uc2" <-> files form "fab" <> [])).
Proof.
  intros Hh Hf. either_handler Hh; unfold_handler; rewrite Hf; flat;
    repeat (case_world; flat); intros; try congruence;
    cbn [workspace_failed existsb is_workspace_failure orb app];
    eexists _, _; (split; [reflexivity |]); cbn [UseCase failure];
    (split; [intros; (reflexivity || discriminate) |]);
    intros; try discriminate;
    repeat split; intros; auto; try congruence; try discriminate.
Qed.

Lemma use_case_tag_of_replies_witness :
  (exists status body,
     reply Server.validateFiles (worldInitFails bothFiles)
       = Some (status, body) /\
     UseCase body = "uc2") /\
  (exists status body,
     reply ServerExact.validateFiles (worldNoWrite bothFiles)
       = Some (status, body) /\
     UseCase body = EmptyString).
Proof.
  split.
  - destruct (use_case_tag_of_replies Server.validateFiles
                (worldInitFails bothFiles) bothFiles)
      as (status & body & Hr & _ & Htag).
    + left. reflexivity.
    + reflexivity.
    + vm_compute. discriminate.
    + exists status, body. split; [exact Hr |].
      destruct Htag as [_ [_ H2]]; [vm_compute; reflexivity |].
      apply H2. vm_compute. discriminate.
  - destruct (use_case_tag_of_replies ServerExact.validateFiles
                (worldNoWrite bothFiles) bothFiles)
      as (status & body & Hr & Hfail & _).
    + right. left. reflexivity.
    + reflexivity.
    + vm_compute. discriminate.
    + exists status, body. split; [exact Hr |].
      apply Hfail. vm_compute. reflexivity.
Defined.

(** With the wiring file alone, the reply of [server/main.go] to a request
    whose temporary directory cannot be created carries no tag. *)
Lemma untagged_failure_reply :
  ~ tag_follows_form Server.validateFiles (worldNoTemp wiringOnly).
Proof.
  intros H.
  destruct (H wiringOnly) as (status & body & Hr & H1 & _).
  - reflexivity.
  - vm_compute. discriminate.
  - vm_compute in Hr. injection Hr as _ <-.
    destruct H1 as [_ H1]. discriminate H1. vm_compute. reflexivity.
Qed.

(** C5. A text none of whose lines contains the marker ["ERR"] has the
    fixed summary, the string ["Unknown validation error"] of the source. *)
Theorem extract_without_marker (output : string) :
  no_marker_line output = true ->
  extractErrorMessage output = "Unknown validation error".
Proof.
  unfold no_marker_line, extractErrorMessage.
  induction (Split output LF) as [|line rest IH]; [reflexivity |].
  cbn [forallb extract_loop]. intros H.
  apply andb_prop in H as [Hline Hrest].
  apply negb_true_iff in Hline. rewrite Hline. exact (IH Hrest).
Qed.

Lemma extract_without_marker_witness :
  no_marker_line validOutput = true /\
  extractErrorMessage validOutput = "Unknown validation error".
Proof.
  assert (H : no_marker_line validOutput = true) by (vm_compute; reflexivity).
  split; [exact H | exact (extract_without_marker validOutput H)].
Defined.

(** C6, as amended. The extraction is a function of the text alone, and
    applying it to its own result gives that result back exactly when the
    result is the fixed string: the fixed string is the only summary that
    is its own summary. *)
Theorem extract_idempotent_iff (s : string) :
  (forall t, s = t -> extractErrorMessage s = extractErrorMessage t) /\
  (extractErrorMessage (extractErrorMessage s) = extractErrorMessage s <->
   extractErrorMessage s = unknownValidationError).
Proof.
  split; [intros t <-; reflexivity |]. split.
  - apply extract_fixed_point.
  - intros ->. vm_compute. reflexivity.
Qed.

Lemma extract_idempotent_iff_witness :
  extractErrorMessage validOutput = unknownValidationError /\
  extractErrorMessage (extractErrorMessage validOutput)
  = extractErrorMessage validOutput.
Proof.
  assert (H : extractErrorMessage validOutput = unknownValidationError)
    by (vm_compute; reflexivity).
  split; [exact H |].
  exact (proj2 (proj2 (extract_idempotent_iff validOutput)) H).
Defined.

(** The summary of the scenario of the specification is not its own
    summary: extracting twice gives the fixed string. *)
Lemma extract_not_idempotent :
  extractErrorMessage errorOutput = "validating: some error occurred" /\
  extractErrorMessage (extractErrorMessage errorOutput)
  = "Unknown validation error" /\
  extractErrorMessage (extractErrorMessage errorOutput)
  <> extractErrorMessage errorOutput.
Proof.
  split; [vm_compute; reflexivity |].
  split; [vm_compute; reflexivity |].
  vm_compute. discriminate.
Qed.

(** C7. The handlers hand [hhfab validate] no deadline, so the wait is as
    long as the run: a run of 31 seconds is waited for 31 seconds, beyond
    the 30 of [TimeoutSec], a constant that nothing refers to. *)
Theorem wait_exceeds_timeout :
  validate_wait (trace Server.validateFiles (worldSlow 31)) = Some 31 /\
  validate_wait (trace ServerExact.validateFiles (worldSlow 31)) = Some 31 /\
  TimeoutSec < 31.
Proof.
  split; [vm_compute; reflexivity |].
  split; [vm_compute; reflexivity |].
  reflexivity.
Qed.

(** C8, as amended. A failure to create the temporary directory or to
    write an upload is answered with status 500 and [success] false, and
    [hhfab validate] has not run. In [server/main.go] no subprocess at all
    has been started. The second handler runs [hhfab init] before it
    stages the uploads: there a subprocess has been started exactly when
    the temporary directory could be created, that is when the failure is
    that of a write. *)
Theorem staging_failure_aborts (w : World) :
  staging_failure_before_tool Server.validateFiles w /\
  (staging_failed (trace ServerExact.validateFiles w) = true ->
   exists body,
     reply ServerExact.validateFiles w = Some (StatusInternalServerError, body) /\
     Success body = false /\
     validate_run (trace ServerExact.validateFiles w) = None /\
     tool_invoked (trace ServerExact.validateFiles w) =
       match MkdirTemp w EmptyString "validator-*" with
       | Ok _ => true
       | Fail _ => false
       end).
Proof.
  unfold staging_failure_before_tool. repeat split.
  - run_handler; intros; try discriminate; eauto.
  - run_handler; intros; try discriminate; eauto 6.
Qed.

Lemma staging_failure_aborts_witness :
  (exists body,
     reply Server.validateFiles (worldNoWrite bothFiles)
       = Some (StatusInternalServerError, body) /\
     Success body = false /\
     tool_invoked (trace Server.validateFiles (worldNoWrite bothFiles)) = false) /\
  (exists body,
     reply ServerExact.validateFiles (worldNoWrite bothFiles)
       = Some (StatusInternalServerError, body) /\
     Success body = false /\
     validate_run (trace ServerExact.validateFiles (worldNoWrite bothFiles))
       = None /\
     tool_invoked (trace ServerExact.validateFiles (worldNoWrite bothFiles))
       = true).
Proof.
  split.
  - apply (proj1 (staging_failure_aborts (worldNoWrite bothFiles))).
    vm_compute. reflexivity.
  - apply (proj2 (staging_failure_aborts (worldNoWrite bothFiles))).
    vm_compute. reflexivity.
Defined.

(** In the second handler [hhfab init] has run when the wiring file cannot
    be written. *)
Lemma exact_handler_inits_before_staging :
  ~ staging_failure_before_tool ServerExact.validateFiles
      (worldNoWrite wiringOnly).
Proof.
  intros H. destruct H as (body & _ & _ & Htool).
  - vm_compute. reflexivity.
  - vm_compute in Htool. discriminate Htool.
Qed.

(** C9, as amended. The [error] field is there only when the request
    failed, and it is left out exactly when the error string of the reply
    is empty. Where the errors of the system have a text, every reply with
    [success] false carries a non-empty error, but for the replies to a
    failed [hhfab validate]: there [server/main.go] sets the extracted
    summary, or the error of the command when the output has no marker,
    and the second handler sets no error. *)
Theorem error_field_of_replies (w : World) :
  errors_have_text w ->
  (forall h status body,
     In h handlers -> reply h w = Some (status, body) ->
     (Success body = true -> field "error" (marshal body) = None) /\
     (field "error" (marshal body) =
        if String.eqb (Error body) EmptyString then None
        else Some (JString (UTF8.ToValidUTF8 (Error body)))) /\
     (Success body = false -> validate_run (trace h w) = None ->
      Error body <> EmptyString)) /\
  (forall status body res err,
     reply Server.validateFiles w = Some (status, body) ->
     validate_run (trace Server.validateFiles w) = Some res ->
     Err res = Some err ->
     Error body =
       if Contains (Combined res) "ERR"
       then extractErrorMessage (Combined res) else err) /\
  (forall status body res,
     reply ServerExact.validateFiles w = Some (status, body) ->
     validate_run (trace ServerExact.validateFiles w) = Some res ->
     field "error" (marshal body) = None).
Proof.
  intros (Hform & Htemp & Hdir & Hrm & Hsave).
  split; [| split].
  - intros h status body Hh. split; [| split].
    + revert H. either_handler Hh; run_handler; intros; simplify_eq;
      reflexivity || discriminate.
    + unfold marshal. destruct (String.eqb (Error body) EmptyString); reflexivity.
    + revert H. either_handler Hh; run_handler; intros; simplify_eq;
      cbn [Error failure]; try discriminate.
      all: try match goal with
      | H : MultipartForm _ = Fail ?e |- ?e <> _ =>
          intros ->; exact (Hform H)
      | H : MkdirTemp _ _ _ = Fail ?e |- ?e <> _ =>
          intros ->; exact (Htemp _ _ H)
      | H : MkdirAll _ _ = Some ?e |- ?e <> _ =>
          intros ->; exact (Hdir _ H)
      | H : Remove _ _ = Some ?e |- ?e <> _ =>
          intros ->; exact (Hrm _ H)
      | H : SaveUploadedFile _ _ _ = Some ?e |- ?e <> _ =>
          intros ->; exact (Hsave _ _ H)
      end.
      all: congruence.
  - intros status body res err. run_handler; intros; simplify_eq; cbn [Error failure];
      try discriminate.
    all: reflexivity || congruence.
  - intros status body res. run_handler; intros; simplify_eq; reflexivity || discriminate.
Qed.


Lemma error_field_of_replies_witness :
  errors_have_text (worldNoWrite wiringOnly) /\
  exists status body,
    reply Server.validateFiles (worldNoWrite wiringOnly)
      = Some (status, body) /\
    Success body = false /\
    Error body <> EmptyString /\
    field "error" (marshal body)
      = Some (JString (UTF8.ToValidUTF8 (Error body))).
Proof.
  assert (Hw : errors_have_text (worldNoWrite wiringOnly)).
  { unfold errors_have_text. repeat apply conj; intros; vm_compute; discriminate. }
  split; [exact Hw |].
  destruct (error_field_of_replies (worldNoWrite wiringOnly) Hw) as [Hall _].
  assert (Hr : exists status body,
             reply Server.validateFiles (worldNoWrite wiringOnly)
               = Some (status, body) /\ Success body = false).
  { eexists _, _. split; [vm_compute; reflexivity | reflexivity]. }
  destruct Hr as (status & body & Hr & Hs).
  destruct (Hall Server.validateFiles status body) as (_ & Hfield & Hne);
    [left; reflexivity | exact Hr |].
  assert (He : Error body <> EmptyString)
    by (apply Hne; [exact Hs | vm_compute; reflexivity]).
  exists status, body. repeat split; try assumption.
  rewrite Hfield. destruct (String.eqb_spec (Error body) EmptyString);
    [contradiction | reflexivity].
Defined.

(** The second handler answers a failed validation with [success] false
    and without the [error] field. *)
Lemma failure_without_error_field :
  ~ error_iff_failure ServerExact.validateFiles
      (world wiringOnly (exited1 errorOutput)).
Proof.
  intros (status & body & Hr & Hfail & _).
  vm_compute in Hr. injection Hr as _ <-.
  destruct Hfail as (e & He & _); [reflexivity |].
  vm_compute in He. discriminate He.
Qed.

(** C10. The summary is that of the first line that contains ["ERR "],
    the marker with its space: what follows its first occurrence in that
    line, trimmed; a line without ["ERR "] is passed over, also when it
    contains ["ERR"]; and without such a line the summary is the fixed
    string. *)
Theorem extract_first_marker_line (output : string) :
  extractErrorMessage output = summary_by_first_marker output /\
  (forall line rest,
     extract_loop (line :: rest) =
     if Contains line "ERR " then
       TrimSpace (slice_from line (Index line "ERR " + 4))
     else extract_loop rest).
Proof.
  split.
  - apply extract_loop_summary.
  - apply extract_loop_step.
Qed.

(** * Further properties of the handlers *)

Lemma append_assoc (a b c : string) : (a +:+ b) +:+ c = a +:+ (b +:+ c).
Proof.
  induction a as [|x a IH]; [reflexivity |].
  rewrite !append_cons. now rewrite IH.
Qed.

Lemma inside_self (d : string) : inside d d = true.
Proof. unfold inside. now rewrite String.eqb_refl. Qed.

(** X1. The temporary directory is removed, once and last of all, exactly
    when it was made. *)
Theorem tempdir_removed (h : Handler Empty_set) (w : World) :
  In h handlers ->
  removed_all (trace h w) =
    match created_dir (trace h w) with Some d => [d] | None => [] end /\
  (forall d, created_dir (trace h w) = Some d ->
     last (trace h w) = Some (RemoveAllEv d)).
Proof.
  intros Hh. either_handler Hh; run_trace;
    (split; [reflexivity | intros; simplify_eq; reflexivity]).
Qed.

Lemma tempdir_removed_witness :
  In Server.validateFiles handlers /\
  removed_all (trace Server.validateFiles (world bothFiles (exited1 errorOutput)))
    = ["/tmp/validator-1"] /\
  last (trace Server.validateFiles (world bothFiles (exited1 errorOutput)))
    = Some (RemoveAllEv "/tmp/validator-1").
Proof.
  assert (Hh : In Server.validateFiles handlers) by (left; reflexivity).
  destruct (tempdir_removed Server.validateFiles
              (world bothFiles (exited1 errorOutput)) Hh) as [H1 H2].
  split; [exact Hh |]. split; [exact H1 |].
  apply H2. vm_compute. reflexivity.
Defined.

(** X3. The status of a reply is 200, 400 or 500; [success] is true
    exactly in the replies with status 200, and those are the replies to
    the requests for which [hhfab validate] ran and returned no error. *)
Theorem success_iff_validated
    (h : Handler Empty_set) (w : World) (status : Z) (body : ValidateResponse) :
  In h handlers ->
  reply h w = Some (status, body) ->
  (status = 200 \/ status = 400 \/ status = 500) /\
  (Success body = true <-> status = 200) /\
  (status = 200 <->
   exists res, validate_run (trace h w) = Some res /\ Err res = None).
Proof.
  intros Hh. either_handler Hh; run_handler; intros; simplify_eq;
    (split; [unfold StatusOK, StatusBadRequest, StatusInternalServerError; auto |]);
    (split; [split; intros; (reflexivity || discriminate) |]);
    (split; [intros; try discriminate; eauto |]);
    intros (res & Hv & He); simplify_eq; try reflexivity; congruence.
Qed.

Lemma success_iff_validated_witness :
  In Server.validateFiles handlers /\
  reply Server.validateFiles (world wiringOnly (exited0 validOutput))
    = Some (200, {| Success := true;
                    Message := "Fabricator config and wiring are valid";
                    Output := validOutput; UseCase := "uc1";
                    Error := EmptyString |}) /\
  exists res,
    validate_run (trace Server.validateFiles (world wiringOnly (exited0 validOutput)))
      = Some res /\
    Err res = None.
Proof.
  assert (Hh : In Server.validateFiles handlers) by (left; reflexivity).
  assert (Hr : reply Server.validateFiles (world wiringOnly (exited0 validOutput))
               = Some (200, {| Success := true;
                               Message := "Fabricator config and wiring are valid";
                               Output := validOutput; UseCase := "uc1";
                               Error := EmptyString |}))
    by (vm_compute; reflexivity).
  split; [exact Hh |]. split; [exact Hr |].
  destruct (success_iff_validated _ _ _ _ Hh Hr) as (_ & _ & H).
  apply H. reflexivity.
Defined.

(** X4. A request starts at most two subprocesses, both [hhfab] in the
    work directory below the temporary directory: [init], and after an
    [init] without error, [validate], once. *)
Theorem subprocess_discipline (h : Handler Empty_set) (w : World) :
  In h handlers ->
  execs (trace h w) = [] \/
  exists d ci ri,
    created_dir (trace h w) = Some d /\
    Path ci = "hhfab" /\ first_of (Args ci) = Some "init" /\
    Dir ci = Join d "work" /\
    (execs (trace h w) = [(ci, ri)] \/
     exists rv,
       Err ri = None /\
       execs (trace h w) =
         [(ci, ri); (withDir (Command "hhfab" ["validate"]) (Join d "work"), rv)]).
Proof.
  intros Hh. either_handler Hh; run_trace; auto; right;
    match goal with
    | |- context [Some ?d0 = Some _] => exists d0
    end;
    match goal with
    | |- context [(?c, ?r) :: _ = _] => exists c, r
    end;
    repeat (split; [reflexivity |]);
    first [ left; reflexivity
          | right; eexists; split; [eassumption | reflexivity] ].
Qed.

Lemma subprocess_discipline_witness :
  In Server.validateFiles handlers /\
  (execs (trace Server.validateFiles (worldInitFails wiringOnly)) = [] \/
   exists d ci ri,
     created_dir (trace Server.validateFiles (worldInitFails wiringOnly)) = Some d /\
     Path ci = "hhfab" /\ first_of (Args ci) = Some "init" /\
     Dir ci = Join d "work" /\
     (execs (trace Server.validateFiles (worldInitFails wiringOnly)) = [(ci, ri)] \/
      exists rv,
        Err ri = None /\
        execs (trace Server.validateFiles (worldInitFails wiringOnly)) =
          [(ci, ri);
           (withDir (Command "hhfab" ["validate"]) (Join d "work"), rv)])).
Proof.
  assert (Hh : In Server.validateFiles handlers) by (left; reflexivity).
  split; [exact Hh |].
  exact (subprocess_discipline Server.validateFiles
           (worldInitFails wiringOnly) Hh).
Defined.

(** X5. When [hhfab init] fails, the reply carries its combined output,
    its error behind the words [hhfab init failed: ], and the tag of the
    form; the status is 400 in [server/main.go] and 500 in the second
    handler; [hhfab validate] is not run. *)
Theorem init_failure_reply (w : World) (form : Form) :
  MultipartForm w = Ok form ->
  (forall cmd res err,
     init_run (trace Server.validateFiles w) = Some (cmd, res) ->
     Err res = Some err ->
     reply Server.validateFiles w =
       Some (400,
             {| Success := false; Message := "Failed to initialize hhfab";
                Output := Combined res;
                UseCase := useCaseOf (files form "fab");
                Error := "hhfab init failed: " +:+ err |}) /\
     validate_run (trace Server.validateFiles w) = None) /\
  (forall cmd res err,
     init_run (trace ServerExact.validateFiles w) = Some (cmd, res) ->
     Err res = Some err ->
     reply ServerExact.validateFiles w =
       Some (500,
             {| Success := false; Message := "Failed to initialize hhfab";
                Output := Combined res;
                UseCase := useCaseOf (files form "fab");
                Error := "hhfab init failed: " +:+ err |}) /\
     validate_run (trace ServerExact.validateFiles w) = None).
Proof.
  intros Hf. split; unfold_handler; rewrite Hf; flat;
    repeat (case_world; flat); flat_trace; intros; simplify_eq;
    split; reflexivity.
Qed.

Lemma init_failure_reply_witness :
  reply Server.validateFiles (worldInitFails bothFiles) =
    Some (400,
          {| Success := false; Message := "Failed to initialize hhfab";
             Output := "06:38:17 ERR init: bad wiring";
             UseCase := "uc2";
             Error := "hhfab init failed: exit status 1" |}) /\
  reply ServerExact.validateFiles (worldInitFails bothFiles) =
    Some (500,
          {| Success := false; Message := "Failed to initialize hhfab";
             Output := "06:38:17 ERR init: bad wiring";
             UseCase := "uc2";
             Error := "hhfab init failed: exit status 1" |}).
Proof.
  assert (Hf : MultipartForm (worldInitFails bothFiles) = Ok bothFiles)
    by reflexivity.
  destruct (init_failure_reply (worldInitFails bothFiles) bothFiles Hf)
    as [Hmain Hexact].
  split.
  - refine (proj1 (Hmain
      (withDir (Command "hhfab"
                  ["init"; "-c"; "/tmp/validator-1/fab.yaml";
                   "-w"; "/tmp/validator-1/wiring.yaml"])
         "/tmp/validator-1/work")
      (exited1 "06:38:17 ERR init: bad wiring") "exit status 1" _ _));
      vm_compute; reflexivity.
  - refine (proj1 (Hexact
      (withDir (Command "hhfab" ["init"; "--dev"]) "/tmp/validator-1/work")
      (exited1 "06:38:17 ERR init: bad wiring") "exit status 1" _ _));
      vm_compute; reflexivity.
Defined.

(** X6. A request whose form cannot be parsed is answered with status 400
    and the error of the parser, and the handler has made no call. *)
Theorem unparsed_form_rejected (h : Handler Empty_set) (w : World) (err : string) :
  In h handlers ->
  MultipartForm w = Fail err ->
  serve h w =
    ([], Some (400,
               {| Success := false;
                  Message := "Failed to parse multipart form";
                  Output := EmptyString; UseCase := EmptyString;
                  Error := err |})).
Proof.
  intros Hh Hf. either_handler Hh; unfold_handler; rewrite Hf; reflexivity.
Qed.

Lemma unparsed_form_rejected_witness :
  serve Server.validateFiles worldNoForm =
    ([], Some (400,
               {| Success := false;
                  Message := "Failed to parse multipart form";
                  Output := EmptyString; UseCase := EmptyString;
                  Error := "no multipart boundary param in Content-Type" |})).
Proof.
  apply (unparsed_form_rejected Server.validateFiles worldNoForm).
  - left. reflexivity.
  - reflexivity.
Defined.

(** X7. [server/main.go] runs [hhfab init] on the files it has written:
    without a fab file, [init --dev -w] on the first wiring file, saved as
    [wiring.yaml] in the temporary directory and the only file written;
    with one, [init -c ... -w ...] on the first fab file, saved as
    [fab.yaml], and the wiring file. *)
Theorem server_init_command (w : World) (form : Form) (ci : Cmd) (ri : CmdResult) :
  MultipartForm w = Ok form ->
  init_run (trace Server.validateFiles w) = Some (ci, ri) ->
  exists d wiring,
    created_dir (trace Server.validateFiles w) = Some d /\
    first_of (files form "wiring") = Some wiring /\
    match first_of (files form "fab") with
    | None =>
        saved (trace Server.validateFiles w) = [(wiring, Join d "wiring.yaml")] /\
        Args ci = ["init"; "--dev"; "-w"; Join d "wiring.yaml"]
    | Some fab =>
        saved (trace Server.validateFiles w) =
          [(wiring, Join d "wiring.yaml"); (fab, Join d "fab.yaml")] /\
        Args ci = ["init"; "-c"; Join d "fab.yaml"; "-w"; Join d "wiring.yaml"]
    end.
Proof.
  intros Hf. unfold_handler; rewrite Hf; flat;
    repeat (case_world; flat); flat_trace; intros; simplify_eq;
    eexists _, _; repeat split; reflexivity.
Qed.

Lemma server_init_command_witness :
  exists d wiring,
    created_dir (trace Server.validateFiles (world bothFiles (exited0 validOutput)))
      = Some d /\
    first_of (files bothFiles "wiring") = Some wiring /\
    match first_of (files bothFiles "fab") with
    | None =>
        saved (trace Server.validateFiles (world bothFiles (exited0 validOutput)))
          = [(wiring, Join d "wiring.yaml")] /\
        Args (withDir (Command "hhfab"
                         ["init"; "-c"; "/tmp/validator-1/fab.yaml";
                          "-w"; "/tmp/validator-1/wiring.yaml"])
                "/tmp/validator-1/work")
          = ["init"; "--dev"; "-w"; Join d "wiring.yaml"]
    | Some fab =>
        saved (trace Server.validateFiles (world bothFiles (exited0 validOutput)))
          = [(wiring, Join d "wiring.yaml"); (fab, Join d "fab.yaml")] /\
        Args (withDir (Command "hhfab"
                         ["init"; "-c"; "/tmp/validator-1/fab.yaml";
                          "-w"; "/tmp/validator-1/wiring.yaml"])
                "/tmp/validator-1/work")
          = ["init"; "-c"; Join d "fab.yaml"; "-w"; Join d "wiring.yaml"]
    end.
Proof.
  apply (server_init_command (world bothFiles (exited0 validOutput)) bothFiles
           _ (exited0 EmptyString)).
  - reflexivity.
  - vm_compute. reflexivity.
Defined.



(** X9. Of the files uploaded under a name only the first is used: two
    forms with the same first wiring file and the same first fab file are
    served alike. *)
Theorem only_first_upload_used
    (h : Handler Empty_set) (w : World) (form form' : Form) :
  In h handlers ->
  first_of (files form "wiring") = first_of (files form' "wiring") ->
  first_of (files form "fab") = first_of (files form' "fab") ->
  serve h (withForm w form) = serve h (withForm w form').
Proof.
  intros Hh. either_handler Hh; unfold_handler; unfold withForm;
    cbn [MultipartForm MkdirTemp MkdirAll Remove SaveUploadedFile CombinedOutput];
    flat;
    destruct (files form "wiring"), (files form' "wiring"),
      (files form "fab"), (files form' "fab");
    flat_trace; flat; intros; simplify_eq; try reflexivity;
    repeat (cbn [MultipartForm MkdirTemp MkdirAll Remove SaveUploadedFile
                 CombinedOutput]; case_world; flat);
    reflexivity.
Qed.

Lemma only_first_upload_used_witness :
  serve Server.validateFiles
    (withForm (world emptyForm (exited0 validOutput)) manyFiles) =
  serve Server.validateFiles
    (withForm (world emptyForm (exited0 validOutput)) bothFiles).
Proof.
  apply only_first_upload_used.
  - left. reflexivity.
  - vm_compute. reflexivity.
  - vm_compute. reflexivity.
Defined.

(** X14. The JSON object determines a response whose strings are valid
    UTF-8: leaving out the empty [error] loses nothing. *)
Theorem marshal_injective (r r' : ValidateResponse) :
  valid_response r = true -> valid_response r' = true ->
  marshal r = marshal r' -> r = r'.
Proof.
  destruct r as [s m o u e], r' as [s' m' o' u' e'].
  unfold valid_response, marshal.
  cbn [Success Message Output UseCase Error app].
  intros Hv Hv'.
  repeat match goal with
         | H : _ && _ = true |- _ => apply andb_true_iff in H as [? ?]
         end.
  rewrite !ToValidUTF8_valid by assumption.
  destruct (String.eqb_spec e EmptyString) as [->|He],
           (String.eqb_spec e' EmptyString) as [->|He'];
    intros Heq; simplify_eq; reflexivity.
Qed.

Lemma marshal_injective_witness :
  valid_response missingWiring = true /\
  forall e,
    marshal (failure "Missing required wiring file" e) = marshal missingWiring ->
    valid_response (failure "Missing required wiring file" e) = true ->
    e = "wiring file is required".
Proof.
  split; [reflexivity |].
  intros e Hm Hv.
  assert (H : failure "Missing required wiring file" e = missingWiring).
  { apply marshal_injective; [exact Hv | reflexivity | exact Hm]. }
  exact (f_equal Error H).
Defined.

(** * Further properties of the extraction *)

Section SplitFacts.

#[local] Arguments HasPrefix : simpl never.

Lemma Split_nonempty (s : string) (sep : ascii) : Split s sep <> [].
Proof.
  destruct s as [|c s]; simpl; [discriminate |].
  destruct (Ascii.eqb c sep); [discriminate |].
  destruct (Split s sep); discriminate.
Qed.

Lemma concat_cons (sep x : string) (xs : list string) :
  xs <> [] ->
  String.concat sep (x :: xs) = x +:+ sep +:+ String.concat sep xs.
Proof. destruct xs; [contradiction | reflexivity]. Qed.

Lemma has_byte_Contains (c : ascii) (s : string) :
  Contains s (String c EmptyString) = has_byte c s.
Proof.
  rewrite Contains_Index.
  induction s as [|x s IH]; [reflexivity |].
  cbn [Index has_byte].
  unfold HasPrefix at 1. cbn [String.prefix].
  destruct (ascii_dec c x) as [->|Hne].
  - rewrite Ascii.eqb_refl. now destruct s.
  - assert (Ascii.eqb x c = false) as -> by (apply Ascii.eqb_neq; congruence).
    cbn [orb]. rewrite <- IH. pose proof (Index_ge s (String c EmptyString)).
    destruct (Z.eqb_spec (Index s (String c EmptyString)) (-1)); cbn [negb].
    + reflexivity.
    + destruct (Z.eqb_spec (Index s (String c EmptyString) + 1) (-1)); [lia | reflexivity].
Qed.

(** X10. Splitting at a byte and joining with it is the identity, and no
    piece contains the byte. *)
Theorem Split_concat (s : string) (sep : ascii) :
  String.concat (String sep EmptyString) (Split s sep) = s /\
  forallb (fun piece => negb (Contains piece (String sep EmptyString)))
    (Split s sep) = true.
Proof.
  split.
  - induction s as [|c s IH]; [reflexivity |].
    cbn [Split]. pose proof (Split_nonempty s sep) as Hne.
    destruct (Ascii.eqb_spec c sep) as [->|Hc].
    + rewrite concat_cons by assumption. now rewrite IH.
    + destruct (Split s sep) as [|p ps]; [contradiction |].
      destruct ps as [|q qs].
      * cbn [String.concat] in *. now rewrite IH.
      * rewrite concat_cons in * by discriminate.
        rewrite append_cons. now rewrite IH.
  - induction s as [|c s IH]; [reflexivity |].
    cbn [Split]. pose proof (Split_nonempty s sep) as Hne.
    destruct (Ascii.eqb_spec c sep) as [->|Hc].
    + cbn [forallb]. now rewrite IH.
    + destruct (Split s sep) as [|p ps]; [contradiction |].
      cbn [forallb] in *. rewrite has_byte_Contains in *. cbn [has_byte].
      assert (Ascii.eqb c sep = false) as -> by now apply Ascii.eqb_neq.
      exact IH.
Qed.

Lemma Split_lines_of (a b : string) (sep : ascii) :
  Split (a +:+ String sep b) sep = (Split a sep ++ Split b sep)%list.
Proof.
  induction a as [|c a IH].
  - change (EmptyString +:+ String sep b) with (String sep b).
    cbn [Split]. rewrite Ascii.eqb_refl. reflexivity.
  - rewrite append_cons. cbn [Split]. rewrite IH.
    destruct (Ascii.eqb c sep); [reflexivity |].
    pose proof (Split_nonempty a sep).
    destruct (Split a sep); [contradiction | reflexivity].
Qed.

End SplitFacts.

(** * Paths *)

Section PathFacts.

Lemma Split_no_byte (sep : ascii) (s : string) :
  has_byte sep s = false -> Split s sep = [s].
Proof.
  induction s as [|c s IH]; intros H; [reflexivity |].
  cbn [has_byte] in H. apply orb_false_elim in H as [Hc Hs].
  cbn [Split]. rewrite Hc, (IH Hs). reflexivity.
Qed.

Lemma concat_snoc (sep : string) (l : list string) (x : string) :
  l <> [] ->
  String.concat sep (l ++ [x]) = String.concat sep l +:+ sep +:+ x.
Proof.
  induction l as [|a l IH]; intros Hl; [contradiction |].
  destruct l as [|b l]; [reflexivity |].
  change (String.concat sep ((a :: b :: l) ++ [x]))
    with (a +:+ sep +:+ String.concat sep ((b :: l) ++ [x])).
  rewrite IH by discriminate.
  change (String.concat sep (a :: b :: l))
    with (a +:+ sep +:+ String.concat sep (b :: l)).
  rewrite (append_assoc a), (append_assoc sep). reflexivity.
Qed.

Lemma clean_step_name (rooted : bool) (stack : list string) (name : string) :
  plain_name name = true -> clean_step rooted stack name = name :: stack.
Proof.
  unfold plain_name, clean_step. intros H.
  repeat match type of H with
         | _ && _ = true => apply andb_true_iff in H as [H ?]
         end.
  repeat match goal with
         | H : negb ?b = true |- _ => apply negb_true_iff in H; try rewrite H
         end.
  reflexivity.
Qed.

Lemma append_nonempty (a b : string) :
  a <> EmptyString -> String.eqb (a +:+ b) EmptyString = false.
Proof. destruct a; [contradiction | reflexivity]. Qed.

Lemma HasPrefix_byte (a b : string) (c : ascii) :
  a <> EmptyString ->
  HasPrefix (a +:+ b) (String c EmptyString) = HasPrefix a (String c EmptyString).
Proof.
  destruct a as [|x a]; [contradiction |]. intros _.
  rewrite append_cons. unfold HasPrefix. cbn [String.prefix].
  destruct (ascii_dec c x); destruct (a +:+ b), a; reflexivity.
Qed.

(** The clean path of a name below a clean directory is the path of the
    directory, a slash and the name. *)
Lemma Clean_child (dir name : string) :
  clean_dir dir = true -> plain_name name = true ->
  Clean (dir +:+ "/" +:+ name) = dir +:+ "/" +:+ name.
Proof.
  unfold clean_dir. intros Hd Hn.
  apply andb_true_iff in Hd as [Hd Hdot].
  apply andb_true_iff in Hd as [Hc Hroot].
  apply String.eqb_eq in Hc.
  apply negb_true_iff, String.eqb_neq in Hdot, Hroot.
  assert (Hne : dir <> EmptyString).
  { intros ->. discriminate Hc. }
  assert (Hs : has_byte "/" name = false).
  { unfold plain_name in Hn. apply andb_true_iff in Hn as [_ Hn].
    now apply negb_true_iff in Hn. }
  revert Hc. unfold Clean.
  rewrite (append_nonempty dir _ Hne).
  destruct (String.eqb_spec dir EmptyString) as [E|_]; [contradiction |].
  rewrite (HasPrefix_byte dir _ "/" Hne).
  change ("/" +:+ name) with (String "/" name).
  rewrite Split_lines_of, (Split_no_byte _ _ Hs), fold_left_app.
  cbn [fold_left]. rewrite (clean_step_name _ _ _ Hn).
  set (stack := fold_left (clean_step (HasPrefix dir "/")) (Split dir "/") []).
  destruct stack as [|top stack]; cbn [rev app].
  - cbn [String.concat]. intros E.
    destruct (HasPrefix dir "/"); vm_compute in E; congruence.
  - rewrite (concat_snoc "/" (rev stack ++ [top]) name)
      by (intros E; apply app_eq_nil in E as [_ E]; discriminate E).
    set (kept := String.concat "/" (rev stack ++ [top])).
    destruct (HasPrefix dir "/").
    + rewrite !(append_cons "/" EmptyString).
      change (EmptyString +:+ kept) with kept.
      change (EmptyString +:+ kept +:+ String "/" name)
        with (kept +:+ String "/" name).
      cbn [String.eqb]. intros <-. rewrite append_cons. reflexivity.
    + destruct (String.eqb_spec kept EmptyString) as [E|Hk].
      * intros <-. contradiction.
      * rewrite (append_nonempty kept _ Hk). now intros <-.
Qed.

Lemma Join_child (dir name : string) :
  clean_dir dir = true -> plain_name name = true ->
  Join dir name = dir +:+ "/" +:+ name /\ clean_dir (Join dir name) = true.
Proof.
  intros Hd Hn. pose proof (Clean_child dir name Hd Hn) as Hc.
  assert (Hne : dir <> EmptyString).
  { intros ->. discriminate Hd. }
  assert (Hj : Join dir name = dir +:+ "/" +:+ name).
  { unfold Join. destruct (String.eqb_spec dir EmptyString); [contradiction | exact Hc]. }
  split; [exact Hj |].
  rewrite Hj. unfold clean_dir. rewrite Hc, String.eqb_refl.
  destruct dir as [|x dir]; [contradiction |].
  rewrite append_cons. cbn [String.eqb].
  assert (E : String.eqb (dir +:+ "/" +:+ name) EmptyString = false)
    by (destruct dir; reflexivity).
  rewrite E. now destruct (Ascii.eqb x "/"), (Ascii.eqb x ".").
Qed.

Lemma inside_child (dir name : string) :
  inside dir (dir +:+ "/" +:+ name) = true.
Proof.
  unfold inside. rewrite <- append_assoc, HasPrefix_append. apply orb_true_r.
Qed.

Lemma inside_Join (d a : string) :
  clean_dir d = true -> plain_name a = true -> inside d (Join d a) = true.
Proof.
  intros Hd Ha. destruct (Join_child d a Hd Ha) as [-> _]. apply inside_child.
Qed.

Lemma inside_Join_Join (d a b : string) :
  clean_dir d = true -> plain_name a = true -> plain_name b = true ->
  inside d (Join (Join d a) b) = true.
Proof.
  intros Hd Ha Hb. destruct (Join_child d a Hd Ha) as [Ea Hda].
  destruct (Join_child _ b Hda Hb) as [-> _]. rewrite Ea.
  rewrite append_assoc. apply inside_child.
Qed.

Lemma inside_Join_Join_Join (d a b c : string) :
  clean_dir d = true -> plain_name a = true -> plain_name b = true ->
  plain_name c = true ->
  inside d (Join (Join (Join d a) b) c) = true.
Proof.
  intros Hd Ha Hb Hc. destruct (Join_child d a Hd Ha) as [Ea Hda].
  destruct (Join_child _ b Hda Hb) as [Eb Hdb].
  destruct (Join_child _ c Hdb Hc) as [-> _]. rewrite Eb, Ea.
  rewrite !append_assoc. apply inside_child.
Qed.

(** A directory named by a path that is not clean is left by the string
    of every path joined to it. *)
Lemma unclean_tempdir_left :
  inside "/tmp//validator-1" (Join "/tmp//validator-1" "work") = false.
Proof. reflexivity. Qed.

End PathFacts.

(** X2. Everything the handler writes, removes or runs lies in the
    temporary directory, when [os.MkdirTemp] names it by a clean path:
    [filepath.Join] cleans the paths it makes, so they begin with the
    clean path of the directory. *)
Theorem paths_inside_tempdir (h : Handler Empty_set) (w : World) :
  In h handlers ->
  match created_dir (trace h w) with
  | Some d =>
      clean_dir d = true ->
      forallb (inside d) (flat_map touched (trace h w)) = true
  | None => flat_map touched (trace h w) = []
  end.
Proof.
  intros Hh. either_handler Hh; run_trace; try reflexivity; intros Hd;
    rewrite ?inside_self, ?inside_Join, ?inside_Join_Join,
      ?inside_Join_Join_Join by (assumption || reflexivity);
    reflexivity.
Qed.

Lemma paths_inside_tempdir_witness :
  In ServerExact.validateFiles handlers /\
  clean_dir "/tmp/validator-1" = true /\
  forallb (inside "/tmp/validator-1")
    (flat_map touched
       (trace ServerExact.validateFiles (world bothFiles (exited0 validOutput))))
    = true.
Proof.
  assert (Hh : In ServerExact.validateFiles handlers)
    by (right; left; reflexivity).
  split; [exact Hh |]. split; [reflexivity |].
  exact (paths_inside_tempdir ServerExact.validateFiles
           (world bothFiles (exited0 validOutput)) Hh eq_refl).
Defined.

Lemma extract_loop_app (l1 l2 : list string) :
  extract_loop (l1 ++ l2) =
  if existsb (fun line => Contains line "ERR ") l1 then extract_loop l1
  else extract_loop l2.
Proof.
  induction l1 as [|line l1 IH]; [reflexivity |].
  change ((line :: l1) ++ l2)%list with (line :: (l1 ++ l2))%list.
  rewrite !extract_loop_step. cbn [existsb].
  destruct (Contains line "ERR "); [reflexivity | exact IH].
Qed.

(** X11. The summary of a text followed by a line feed and more text is
    the summary of the first text when one of its lines has the marker
    and a space, and the summary of the rest otherwise. *)
Theorem extract_lines_of (a b : string) :
  extractErrorMessage (lines_of a b) =
  if has_marker_line a then extractErrorMessage a else extractErrorMessage b.
Proof.
  unfold extractErrorMessage, lines_of, has_marker_line.
  rewrite Split_lines_of. apply extract_loop_app.
Qed.

(** X12. The summary is the fixed string or at least four bytes shorter
    than the text. *)
Theorem extract_shorter (output : string) :
  extractErrorMessage output = "Unknown validation error" \/
  (String.length (extractErrorMessage output) + 4 <= String.length output)%nat.
Proof.
  unfold extractErrorMessage.
  destruct (extract_loop_shorter (Split output LF)) as [E | (l & Hin & Hl)].
  - left. exact E.
  - right. apply Split_length in Hin. lia.
Qed.

(** * The shape of the summary *)

Section TrimFacts.

#[local] Arguments HasPrefix : simpl never.
Local Open Scope nat_scope.

Lemma rev_string_app (a b : string) :
  rev_string (a +:+ b) = rev_string b +:+ rev_string a.
Proof.
  induction a as [|c a IH].
  - change (EmptyString +:+ b) with b. cbn [rev_string].
    induction (rev_string b) as [|x r IHr]; [reflexivity |].
    rewrite append_cons. now rewrite <- IHr.
  - rewrite append_cons. cbn [rev_string]. rewrite IH. apply append_assoc.
Qed.

Lemma rev_string_involutive (s : string) : rev_string (rev_string s) = s.
Proof.
  induction s as [|c s IH]; [reflexivity |].
  cbn [rev_string]. rewrite rev_string_app, IH. reflexivity.
Qed.

Lemma drop_bytes_suffix (n : nat) (s : string) :
  exists u, s = u +:+ drop_bytes n s.
Proof.
  revert s. induction n as [|n IH]; intros s.
  - exists EmptyString. reflexivity.
  - destruct s as [|c s]; [exists EmptyString; reflexivity |].
    destruct (IH s) as [u Hu]. exists (String c u).
    cbn [drop_bytes]. rewrite append_cons. now rewrite <- Hu.
Qed.

Lemma trim_left_suffix (fuel : nat) (runes : list string) (s : string) :
  exists u, s = u +:+ trim_left fuel runes s.
Proof.
  revert s. induction fuel as [|fuel IH]; intros s; cbn [trim_left].
  - exists EmptyString. reflexivity.
  - destruct (leading_space runes s) as [|k]; [exists EmptyString; reflexivity |].
    destruct (drop_bytes_suffix (S k) s) as [u Hu].
    destruct (IH (drop_bytes (S k) s)) as [v Hv].
    exists (u +:+ v). rewrite append_assoc, <- Hv. exact Hu.
Qed.

Lemma leading_space_le (runes : list string) (s : string) :
  leading_space runes s <= String.length s.
Proof.
  unfold leading_space.
  destruct (List.find (fun r => HasPrefix s r) runes) as [r|] eqn:E; [|lia].
  apply List.find_some in E as [_ E]. now apply HasPrefix_length.
Qed.

Lemma trim_left_fixed (fuel : nat) (runes : list string) (s : string) :
  leading_space runes s = 0 -> trim_left fuel runes s = s.
Proof. intros H. destruct fuel; cbn [trim_left]; [reflexivity | now rewrite H]. Qed.

Lemma trim_left_done (fuel : nat) (runes : list string) (s : string) :
  String.length s <= fuel ->
  leading_space runes (trim_left fuel runes s) = 0.
Proof.
  revert s. induction fuel as [|fuel IH]; intros s Hlen; cbn [trim_left].
  - pose proof (leading_space_le runes s). lia.
  - destruct (leading_space runes s) as [|k] eqn:E; [exact E |].
    apply IH. rewrite drop_bytes_length. lia.
Qed.

Lemma HasPrefix_mono (t v r : string) :
  HasPrefix t r = true -> HasPrefix (t +:+ v) r = true.
Proof.
  unfold HasPrefix. revert t.
  induction r as [|a r IH]; intros t; [now destruct (t +:+ v), t |].
  destruct t as [|b t]; [discriminate |].
  rewrite append_cons. cbn [String.prefix].
  destruct (ascii_dec a b); [apply IH | discriminate].
Qed.

Lemma leading_space_prefix (runes : list string) (t v : string) :
  nonempty_runes runes = true ->
  leading_space runes (t +:+ v) = 0 -> leading_space runes t = 0.
Proof.
  unfold leading_space, nonempty_runes. intros Hne.
  induction runes as [|r runes IH]; [reflexivity |].
  cbn [List.find forallb] in *. apply andb_prop in Hne as [Hr Hne].
  destruct (HasPrefix t r) eqn:Et.
  - rewrite (HasPrefix_mono _ v _ Et). exact (fun H => H).
  - destruct (HasPrefix (t +:+ v) r) eqn:Es.
    + intros H. destruct r; [discriminate Hr | discriminate H].
    + apply IH, Hne.
Qed.

Lemma TrimSpace_idempotent (s : string) : TrimSpace (TrimSpace s) = TrimSpace s.
Proof.
  unfold TrimSpace.
  set (L := TrimLeftSpace s).
  assert (HL : leading_space space_runes L = 0).
  { unfold L, TrimLeftSpace. apply trim_left_done. lia. }
  unfold TrimRightSpace at 2.
  set (Y := trim_left (String.length L) (List.map rev_string space_runes) (rev_string L)).
  assert (HY : leading_space (List.map rev_string space_runes) Y = 0).
  { unfold Y. apply trim_left_done. rewrite rev_string_length. lia. }
  assert (HT : leading_space space_runes (rev_string Y) = 0).
  { destruct (trim_left_suffix (String.length L)
                (List.map rev_string space_runes) (rev_string L)) as [u Hu].
    fold Y in Hu. apply (f_equal rev_string) in Hu.
    rewrite rev_string_involutive, rev_string_app in Hu.
    apply (leading_space_prefix _ _ (rev_string u)); [reflexivity |].
    now rewrite <- Hu. }
  unfold TrimLeftSpace at 1. rewrite trim_left_fixed by exact HT.
  unfold TrimRightSpace. rewrite rev_string_involutive.
  rewrite trim_left_fixed by exact HY. reflexivity.
Qed.

End TrimFacts.

Section SummaryShape.

#[local] Arguments TrimSpace : simpl never.

Lemma has_byte_app (c : ascii) (a b : string) :
  has_byte c (a +:+ b) = has_byte c a || has_byte c b.
Proof.
  induction a as [|x a IH]; [reflexivity |].
  rewrite append_cons. cbn [has_byte]. rewrite IH. apply orb_assoc.
Qed.

Lemma has_byte_rev (c : ascii) (s : string) :
  has_byte c (rev_string s) = has_byte c s.
Proof.
  induction s as [|x s IH]; [reflexivity |].
  cbn [rev_string has_byte]. rewrite has_byte_app, IH. cbn [has_byte].
  rewrite orb_false_r. apply orb_comm.
Qed.

Lemma has_byte_suffix (c : ascii) (s u t : string) :
  s = u +:+ t -> has_byte c s = false -> has_byte c t = false.
Proof.
  intros -> H. rewrite has_byte_app in H. now apply orb_false_elim in H.
Qed.

Lemma has_byte_TrimSpace (c : ascii) (s : string) :
  has_byte c s = false -> has_byte c (TrimSpace s) = false.
Proof.
  intros H. unfold TrimSpace, TrimRightSpace, TrimLeftSpace.
  rewrite has_byte_rev.
  set (L := trim_left (String.length s) space_runes s).
  assert (HL : has_byte c L = false).
  { destruct (trim_left_suffix (String.length s) space_runes s) as [u Hu].
    exact (has_byte_suffix _ _ _ _ Hu H). }
  destruct (trim_left_suffix (String.length L)
              (List.map rev_string space_runes) (rev_string L)) as [u Hu].
  apply (has_byte_suffix _ _ _ _ Hu). now rewrite has_byte_rev.
Qed.

Lemma extract_loop_shape (c : ascii) (lines : list string) :
  has_byte c unknownValidationError = false ->
  forallb (fun line => negb (has_byte c line)) lines = true ->
  has_byte c (extract_loop lines) = false /\
  TrimSpace (extract_loop lines) = extract_loop lines.
Proof.
  intros Hc. induction lines as [|line rest IH]; intros Hl.
  - split; [exact Hc | vm_compute; reflexivity].
  - cbn [forallb] in Hl. apply andb_prop in Hl as [Hline Hrest].
    rewrite extract_loop_step.
    destruct (Contains line "ERR "); [| exact (IH Hrest)].
    split.
    + apply has_byte_TrimSpace. unfold slice_from.
      destruct (drop_bytes_suffix (Z.to_nat (Index line "ERR " + 4)) line) as [u Hu].
      apply (has_byte_suffix _ _ _ _ Hu). now apply negb_true_iff.
    + apply TrimSpace_idempotent.
Qed.

(** X13. The summary is one line without white space around it: it
    contains no line feed, and trimming it changes nothing. *)
Theorem extract_trimmed_line (output : string) :
  Contains (extractErrorMessage output) (String LF EmptyString) = false /\
  TrimSpace (extractErrorMessage output) = extractErrorMessage output.
Proof.
  rewrite has_byte_Contains. unfold extractErrorMessage.
  apply extract_loop_shape; [reflexivity |].
  pose proof (proj2 (Split_concat output LF)) as H.
  apply List.forallb_forall. intros line Hin.
  apply (proj1 (List.forallb_forall _ _) H) in Hin.
  now rewrite has_byte_Contains in Hin.
Qed.

End SummaryShape.

(** * The command-line client *)

Section ClientStrings.

Import Client.

Lemma rev_slashes (n : nat) : rev_string (slashes n) = slashes n.
Proof.
  induction n as [|n IH]; [reflexivity |].
  cbn [slashes rev_string]. rewrite IH. clear IH.
  induction n as [|n IH]; [reflexivity |].
  cbn [slashes]. rewrite append_cons. now rewrite IH.
Qed.

Lemma drop_while_slashes (n : nat) (t : string) :
  drop_while_byte slash (slashes n +:+ t) = drop_while_byte slash t.
Proof.
  induction n as [|n IH]; [reflexivity |].
  cbn [slashes]. rewrite append_cons. cbn [drop_while_byte].
  now rewrite Ascii.eqb_refl.
Qed.

(** What [drop_while_byte] takes off is a run of the byte, and what it
    leaves does not start with the byte. *)
Lemma drop_while_split (s : string) :
  exists n,
    s = slashes n +:+ drop_while_byte slash s /\
    HasPrefix (drop_while_byte slash s) "/" = false.
Proof.
  induction s as [|x s IH]; [exists O; split; reflexivity |].
  cbn [drop_while_byte].
  destruct (Ascii.eqb_spec x slash) as [->|Hx].
  - destruct IH as (n & Hs & Hp). exists (S n). split; [|exact Hp].
    cbn [slashes]. rewrite append_cons. now rewrite <- Hs.
  - exists O. split; [reflexivity |].
    unfold HasPrefix. cbn [String.prefix].
    destruct (ascii_dec "/" x) as [E|_]; [|reflexivity].
    exfalso. apply Hx. symmetry. exact E.
Qed.

Lemma TrimRight_slashes (s : string) (n : nat) :
  TrimRight (s +:+ slashes n) slash = TrimRight s slash.
Proof.
  unfold TrimRight. now rewrite rev_string_app, rev_slashes, drop_while_slashes.
Qed.

Lemma last_byte_HasPrefix (b : string) :
  HasPrefix (rev_string b) "/" = false -> last_byte b <> Some slash.
Proof.
  unfold last_byte, HasPrefix. destruct (rev_string b) as [|c r]; [discriminate |].
  cbn [String.prefix]. destruct (ascii_dec "/" c) as [<-|Hc].
  - now destruct r.
  - intros _ [= E]. apply Hc. symmetry. exact E.
Qed.

Lemma TrimRight_split (s : string) :
  exists n,
    s = TrimRight s slash +:+ slashes n /\
    last_byte (TrimRight s slash) <> Some slash.
Proof.
  unfold TrimRight.
  destruct (drop_while_split (rev_string s)) as (n & Hs & Hp).
  exists n. split.
  - apply (f_equal rev_string) in Hs.
    rewrite rev_string_involutive, rev_string_app, rev_slashes in Hs. exact Hs.
  - apply last_byte_HasPrefix. now rewrite rev_string_involutive.
Qed.

End ClientStrings.

(** X17. The address the client posts to is the server URL without its
    trailing slashes, followed by [/validate]: slashes at the end of the
    URL change nothing. *)
Theorem endpoint_ignores_trailing_slashes (serverURL : string) (n : nat) :
  Client.endpoint (serverURL +:+ Client.slashes n) = Client.endpoint serverURL /\
  exists base k,
    serverURL = base +:+ Client.slashes k /\
    Client.last_byte base <> Some Client.slash /\
    Client.endpoint serverURL = base +:+ "/validate".
Proof.
  unfold Client.endpoint. split.
  - now rewrite TrimRight_slashes.
  - destruct (TrimRight_split serverURL) as (k & Hs & Hl).
    exists (Client.TrimRight serverURL Client.slash), k. repeat split; assumption.
Qed.

Section BaseFacts.

Import Client.

Lemma take_until_no_byte (c : ascii) (s : string) :
  has_byte c (take_until_byte c s) = false.
Proof.
  induction s as [|x s IH]; [reflexivity |].
  cbn [take_until_byte]. destruct (Ascii.eqb x c) eqn:E; [reflexivity |].
  cbn [has_byte]. now rewrite E.
Qed.

Lemma take_until_app (c : ascii) (a b : string) :
  has_byte c a = false -> take_until_byte c (a +:+ String c b) = a.
Proof.
  induction a as [|x a IH]; intros H.
  - change (EmptyString +:+ String c b) with (String c b).
    cbn [take_until_byte]. now rewrite Ascii.eqb_refl.
  - cbn [has_byte] in H. apply orb_false_elim in H as [Hx Ha].
    rewrite append_cons. cbn [take_until_byte]. rewrite Hx. now rewrite IH.
Qed.

Lemma take_until_all (c : ascii) (a : string) :
  has_byte c a = false -> take_until_byte c a = a.
Proof.
  induction a as [|x a IH]; intros H; [reflexivity |].
  cbn [has_byte] in H. apply orb_false_elim in H as [Hx Ha].
  cbn [take_until_byte]. rewrite Hx. now rewrite IH.
Qed.

Lemma drop_while_head (c : ascii) (a b : string) :
  a <> EmptyString -> has_byte c a = false ->
  drop_while_byte c (a +:+ b) = a +:+ b.
Proof.
  destruct a as [|x a]; [contradiction |]. intros _ H.
  cbn [has_byte] in H. apply orb_false_elim in H as [Hx _].
  rewrite append_cons. cbn [drop_while_byte]. now rewrite Hx.
Qed.

Lemma rev_string_nonempty (s : string) :
  s <> EmptyString -> rev_string s <> EmptyString.
Proof.
  intros H E. apply H. apply (f_equal rev_string) in E.
  now rewrite rev_string_involutive in E.
Qed.

Lemma append_empty_r (s : string) : s +:+ EmptyString = s.
Proof. induction s as [|x s IH]; [reflexivity |]. rewrite append_cons. now rewrite IH. Qed.

(** A name without a slash is its own last element. *)
Lemma Base_name (name : string) :
  name <> EmptyString -> has_byte slash name = false -> Base name = name.
Proof.
  intros Hne Hs. unfold Base, TrimRight.
  destruct (String.eqb_spec name EmptyString) as [E|_]; [contradiction |].
  assert (Hr : has_byte slash (rev_string name) = false)
    by now rewrite has_byte_rev.
  pose proof (drop_while_head slash (rev_string name) EmptyString
                (rev_string_nonempty _ Hne) Hr) as Hd.
  rewrite append_empty_r in Hd. rewrite Hd, rev_string_involutive.
  rewrite take_until_all by exact Hr. rewrite rev_string_involutive.
  destruct (String.eqb_spec name EmptyString) as [E|_]; [contradiction | reflexivity].
Qed.

Lemma Base_cases (path : string) :
  Base path = "." \/ Base path = "/" \/
  (Base path <> EmptyString /\ has_byte slash (Base path) = false).
Proof.
  unfold Base.
  destruct (String.eqb_spec path EmptyString) as [_|_]; [now left |].
  set (e := rev_string (take_until_byte slash (rev_string (TrimRight path slash)))).
  destruct (String.eqb_spec e EmptyString) as [_|He]; [right; now left |].
  right. right. split; [exact He |].
  unfold e. rewrite has_byte_rev. apply take_until_no_byte.
Qed.

End BaseFacts.

(** X18. The file name the client sends, [filepath.Base] of the path, is
    never empty and has no slash unless it is ["/"]: the directories of
    the path are not sent. Taking the base twice changes nothing, and the
    base of a path that ends with a slash and a name is the name. *)
Theorem Base_last_element (path : string) :
  Client.Base path <> EmptyString /\
  (has_byte Client.slash (Client.Base path) = true -> Client.Base path = "/") /\
  Client.Base (Client.Base path) = Client.Base path /\
  (forall name,
     name <> EmptyString -> has_byte Client.slash name = false ->
     Client.Base (path +:+ "/" +:+ name) = name).
Proof.
  repeat split.
  - destruct (Base_cases path) as [-> | [-> | [H _]]]; [discriminate | discriminate | exact H].
  - destruct (Base_cases path) as [-> | [-> | [_ H]]]; [discriminate | reflexivity | congruence].
  - destruct (Base_cases path) as [-> | [-> | [H1 H2]]];
      [reflexivity | reflexivity | now apply Base_name].
  - intros name Hne Hs. unfold Client.Base, Client.TrimRight.
    assert (Hp : path +:+ "/" +:+ name <> EmptyString).
    { destruct path; [|discriminate]. discriminate. }
    destruct (String.eqb_spec (path +:+ "/" +:+ name) EmptyString) as [E|_];
      [contradiction |].
    rewrite <- append_assoc, rev_string_app.
    assert (Hr : has_byte Client.slash (rev_string name) = false)
      by now rewrite has_byte_rev.
    rewrite (drop_while_head _ _ _ (rev_string_nonempty _ Hne) Hr).
    rewrite <- rev_string_app, rev_string_involutive.
    rewrite rev_string_app, rev_string_app.
    change (rev_string "/") with "/".
    change ("/" +:+ rev_string path) with (String Client.slash (rev_string path)).
    rewrite take_until_app by exact Hr. rewrite rev_string_involutive.
    destruct (String.eqb_spec name EmptyString) as [E|_]; [contradiction | reflexivity].
Qed.

Lemma Base_last_element_witness :
  Client.Base "/home/user/lab/wiring.yaml" = "wiring.yaml" /\
  Client.Base "///" = "/" /\
  Client.Base ("/home/user/lab" +:+ "/" +:+ "wiring.yaml") = "wiring.yaml".
Proof.
  split; [reflexivity |]. split.
  - apply (proj1 (proj2 (Base_last_element "///"))). reflexivity.
  - apply (proj2 (proj2 (proj2 (Base_last_element "/home/user/lab")))).
    + discriminate.
    + reflexivity.
Defined.

(** X19. The client sends at most one request, and only after both paths
    passed the check and both files were read: a [POST] to the endpoint,
    with the parts of [createMultipartRequest]. The timeout of its client
    is the flag times [time.Second] in the 64 bits of a [time.Duration]:
    the seconds of the flag, in nanoseconds, when the flag is between 0
    and 9223372036, and a wrapped number beyond that. *)
Theorem client_request (w : Client.World) (f : Client.Flags) :
  Client.Sent (Client.runValidate w f) = [] \/
  exists req,
    Client.Sent (Client.runValidate w f) = [req] /\
    Client.validateInputFiles w f = None /\
    Client.createMultipartRequest w f
      = Ok (Client.Body req, Client.ContentType req) /\
    Client.Method req = "POST" /\
    Client.URL req = Client.endpoint (Client.serverURL f) /\
    Client.ClientTimeout req
      = (Client.timeout f * 1000000000 + 2 ^ 63) mod 2 ^ 64 - 2 ^ 63 /\
    (0 <= Client.timeout f <= 9223372036 ->
     Client.ClientTimeout req = Client.timeout f * 1000000000).
Proof.
  unfold Client.runValidate.
  destruct (Client.validateInputFiles w f); [now left |].
  destruct (Client.createMultipartRequest w f) as [[body ct]|err]; [|now left].
  unfold Client.makeRequest.
  destruct (Client.NewRequest w (Client.endpoint (Client.serverURL f)));
    cbn [Client.Returned Client.Sent].
  - now left.
  - right. eexists.
    split; [destruct (Client.Do w _) as [resp|];
            [destruct (Client.Payload resp);
             [destruct (Client.Unmarshal w _) |] |]; reflexivity |].
    cbn [Client.Body Client.ContentType Client.Method Client.URL
         Client.ClientTimeout].
    unfold Client.timeoutDuration, Client.wrap64, Client.Second.
    repeat split.
    intros Ht.
    rewrite Z.mod_small by lia. lia.
Qed.

Lemma client_request_witness :
  exists req,
    Client.Sent (Client.runValidate Client.exampleWorld Client.exampleFlags)
      = [req] /\
    Client.ClientTimeout req = 30000000000.
Proof.
  destruct (client_request Client.exampleWorld Client.exampleFlags)
    as [H | (req & Hs & _ & _ & _ & _ & _ & Ht)].
  - vm_compute in H. discriminate H.
  - exists req. split; [exact Hs |].
    rewrite Ht; [reflexivity | vm_compute; split; discriminate].
Defined.

(** A flag of ten thousand million seconds gives a client whose timeout
    is negative, which [net/http] takes for no timeout. *)
Lemma client_timeout_wraps :
  Client.timeoutDuration
    {| Client.wiringFile := "wiring.yaml"; Client.fabFile := EmptyString;
       Client.serverURL := "http://localhost:8080"; Client.verbose := false;
       Client.timeout := 10000000000 |}
  = -8446744073709551616.
Proof. reflexivity. Qed.

(** X20. The process exits with 0 exactly when the inputs passed, the
    request was made and answered, and the decoded response says
    [success]; otherwise it exits with 1. *)
Theorem client_exit_status (w : Client.World) (f : Client.Flags) :
  (Client.exitStatus (Client.Returned (Client.runValidate w f)) = 0 \/
   Client.exitStatus (Client.Returned (Client.runValidate w f)) = 1) /\
  (Client.exitStatus (Client.Returned (Client.runValidate w f)) = 0 <->
   exists body contentType response,
     Client.validateInputFiles w f = None /\
     Client.createMultipartRequest w f = Ok (body, contentType) /\
     Client.Returned (Client.makeRequest w f body contentType) = Ok response /\
     Success response = true).
Proof.
  unfold Client.runValidate.
  destruct (Client.validateInputFiles w f);
    [split; [now right | split; [discriminate | intros (?&?&?&?&_); discriminate]] |].
  destruct (Client.createMultipartRequest w f) as [[body ct]|err];
    [| split; [now right | split; [discriminate | intros (?&?&?&_&?&_); discriminate]]].
  destruct (Client.Returned (Client.makeRequest w f body ct)) as [r|err] eqn:E;
    cbn [Client.Returned].
  - destruct (Success r) eqn:Es; cbn [negb Client.exitStatus].
    + split; [now left |]. split; [|reflexivity].
      intros _. exists body, ct, r. repeat split; assumption.
    + split; [now right |]. split; [discriminate |].
      intros (b & c & r' & _ & Hc & Hr & Hs). simplify_eq. congruence.
  - split; [now right |]. split; [discriminate |].
    intros (b & c & r' & _ & Hc & Hr & _). simplify_eq. congruence.
Qed.

Lemma client_exit_status_witness :
  Client.exitStatus
    (Client.Returned (Client.runValidate Client.exampleWorld Client.exampleFlags))
    <> 0.
Proof.
  intros H.
  apply (proj1 (proj2 (client_exit_status Client.exampleWorld Client.exampleFlags)))
    in H.
  destruct H as (body & ct & response & _ & Hc & Hr & Hs).
  vm_compute in Hc. injection Hc as <- <-.
  vm_compute in Hr. injection Hr as <-.
  discriminate Hs.
Defined.

Lemma makeRequest_withStatus
    (g : Z -> Z) (w : Client.World) (f : Client.Flags)
    (body : list Client.Part) (contentType : string) :
  Client.makeRequest (Client.withStatus g w) f body contentType
  = Client.makeRequest w f body contentType.
Proof.
  unfold Client.makeRequest, Client.withStatus.
  cbn [Client.NewRequest Client.Do Client.Unmarshal].
  destruct (Client.NewRequest w _); [reflexivity |].
  destruct (Client.Do w _) as [resp|err]; reflexivity.
Qed.

(** X21. The client does not look at the status of the HTTP response:
    with every status changed, the run is the same. *)
Theorem client_ignores_status (g : Z -> Z) (w : Client.World) (f : Client.Flags) :
  Client.runValidate (Client.withStatus g w) f = Client.runValidate w f.
Proof.
  unfold Client.runValidate.
  change (Client.validateInputFiles (Client.withStatus g w) f)
    with (Client.validateInputFiles w f).
  change (Client.createMultipartRequest (Client.withStatus g w) f)
    with (Client.createMultipartRequest w f).
  destruct (Client.validateInputFiles w f); [reflexivity |].
  destruct (Client.createMultipartRequest w f) as [[body ct]|err]; [|reflexivity].
  now rewrite makeRequest_withStatus.
Qed.

(** X22. Without the verbose flag the client prints the mark and the
    message of the response it got and, for a failure with an error, the
    error: not the tool's output, not the use case, and nothing when it
    got no response. *)
Theorem client_quiet_output (w : Client.World) (f : Client.Flags) :
  Client.verbose f = false ->
  match Client.validateInputFiles w f, Client.createMultipartRequest w f with
  | None, Ok (body, contentType) =>
      match Client.Returned (Client.makeRequest w f body contentType) with
      | Ok response =>
          Client.Printed (Client.runValidate w f) =
            ((if Success response then Client.checkMark else Client.crossMark)
               +:+ " " +:+ Message response +:+ Client.nl)
            :: (if Success response || String.eqb (Error response) EmptyString
                then []
                else ["Error: " +:+ Error response +:+ Client.nl])
      | Fail _ => Client.Printed (Client.runValidate w f) = []
      end
  | _, _ => Client.Printed (Client.runValidate w f) = []
  end.
Proof.
  intros Hv. unfold Client.runValidate.
  destruct (Client.validateInputFiles w f); [reflexivity |].
  destruct (Client.createMultipartRequest w f) as [[body ct]|err];
    [|cbn [Client.Printed]; now rewrite Hv].
  assert (Hp : Client.Printed (Client.makeRequest w f body ct) = []).
  { unfold Client.makeRequest. destruct (Client.NewRequest w _); [reflexivity |].
    cbn [Client.Printed]. now rewrite Hv. }
  destruct (Client.Returned (Client.makeRequest w f body ct)) as [r|err];
    cbn [Client.Printed]; rewrite Hv, Hp; [|reflexivity].
  unfold Client.displayResults. rewrite Hv.
  destruct (Success r); cbn [app orb andb]; [reflexivity |].
  destruct (String.eqb (Error r) EmptyString); reflexivity.
Qed.

Lemma client_quiet_output_witness :
  Client.Printed (Client.runValidate Client.exampleWorld Client.exampleFlags) =
    [ Client.crossMark +:+ " Validation failed" +:+ Client.nl;
      "Error: validating: some error occurred" +:+ Client.nl ].
Proof.
  pose proof (client_quiet_output Client.exampleWorld Client.exampleFlags
                eq_refl) as H.
  exact H.
Defined.

(** X23. What the client puts into the form: the wiring file first, under
    the field [wiring], with the bytes of the file, and the fab file under
    [fab] exactly when the flag names one. The file name of a part is the
    last element of the path: it is not empty, and it has no slash unless
    it is ["/"]. The content type names the boundary of the writer. *)
Theorem client_form_parts
    (w : Client.World) (f : Client.Flags) (parts : list Client.Part)
    (contentType : string) :
  Client.createMultipartRequest w f = Ok (parts, contentType) ->
  contentType = "multipart/form-data; boundary=" +:+ Client.Boundary w /\
  (exists data,
     Client.Open w (Client.wiringFile f) = Ok data /\
     if String.eqb (Client.fabFile f) EmptyString
     then parts =
            [ {| Client.FieldName := "wiring";
                 Client.FileName := Client.Base (Client.wiringFile f);
                 Client.Data := data |} ]
     else exists fabData,
            Client.Open w (Client.fabFile f) = Ok fabData /\
            parts =
              [ {| Client.FieldName := "wiring";
                   Client.FileName := Client.Base (Client.wiringFile f);
                   Client.Data := data |};
                {| Client.FieldName := "fab";
                   Client.FileName := Client.Base (Client.fabFile f);
                   Client.Data := fabData |} ]) /\
  Forall (fun p =>
            Client.FileName p <> EmptyString /\
            (has_byte Client.slash (Client.FileName p) = true ->
             Client.FileName p = "/")) parts.
Proof.
  assert (Hb : forall path,
             Client.Base path <> EmptyString /\
             (has_byte Client.slash (Client.Base path) = true ->
              Client.Base path = "/")).
  { intros path. destruct (Base_cases path) as [-> | [-> | [H1 H2]]].
    - split; [discriminate | intros H; discriminate H].
    - split; [discriminate | reflexivity].
    - split; [exact H1 | congruence]. }
  unfold Client.createMultipartRequest, Client.addFileToForm.
  destruct (Client.Open w (Client.wiringFile f)) as [data|]; [|discriminate].
  destruct (String.eqb (Client.fabFile f) EmptyString); cbn [negb].
  - intros [= <- <-]. split; [reflexivity |]. split.
    + exists data. split; reflexivity.
    + repeat constructor; apply Hb.
  - destruct (Client.Open w (Client.fabFile f)) as [fabData|]; [|discriminate].
    intros [= <- <-]. split; [reflexivity |]. split.
    + exists data. split; [reflexivity |]. exists fabData. split; reflexivity.
    + repeat constructor; apply Hb.
Qed.

Lemma client_form_parts_witness :
  Client.createMultipartRequest Client.exampleWorld Client.exampleFlags
    = Ok ([ {| Client.FieldName := "wiring"; Client.FileName := "wiring.yaml";
               Client.Data := "kind: Switch # /home/user/lab/wiring.yaml" |};
            {| Client.FieldName := "fab"; Client.FileName := "fab.yaml";
               Client.Data := "kind: Switch # fab.yaml" |} ],
          "multipart/form-data; boundary=b0undary") /\
  "multipart/form-data; boundary=b0undary"
    = "multipart/form-data; boundary=" +:+ Client.Boundary Client.exampleWorld.
Proof.
  assert (H : Client.createMultipartRequest Client.exampleWorld
                Client.exampleFlags
              = Ok ([ {| Client.FieldName := "wiring";
                         Client.FileName := "wiring.yaml";
                         Client.Data :=
                           "kind: Switch # /home/user/lab/wiring.yaml" |};
                      {| Client.FieldName := "fab";
                         Client.FileName := "fab.yaml";
                         Client.Data := "kind: Switch # fab.yaml" |} ],
                    "multipart/form-data; boundary=b0undary"))
    by (vm_compute; reflexivity).
  split; [exact H |].
  exact (proj1 (client_form_parts _ _ _ _ H)).
Defined.

(** * The mock of the test file *)

(** X24. The mock of the tests makes no call, and it answers a request
    whose form parsed as the second handler does where the file system
    works and [hhfab validate] prints the mock output and exits with 0. *)
Theorem mock_like_exact_handler (w : World) (form : Form) :
  MultipartForm w = Ok form ->
  trace MockServer.validate w = [] /\
  reply MockServer.validate w =
    reply ServerExact.validateFiles (world form (exited0 MockServer.mockOutput)).
Proof.
  intros Hf. unfold MockServer.validate. unfold_handler. rewrite Hf.
  unfold world, hhfab, exited0.
  cbn [MultipartForm MkdirTemp MkdirAll Remove SaveUploadedFile CombinedOutput].
  destruct (files form "wiring") as [|wf wfs]; flat; [split; reflexivity |].
  destruct (files form "fab") as [|ff ffs]; flat;
    cbn [MultipartForm MkdirTemp MkdirAll Remove SaveUploadedFile CombinedOutput
         Err Combined Args withDir Command];
    split; reflexivity.
Qed.

Lemma mock_like_exact_handler_witness :
  trace MockServer.validate (world bothFiles (exited1 crashOutput)) = [] /\
  reply MockServer.validate (world bothFiles (exited1 crashOutput)) =
    reply ServerExact.validateFiles
      (world bothFiles (exited0 MockServer.mockOutput)).
Proof.
  apply (mock_like_exact_handler (world bothFiles (exited1 crashOutput)) bothFiles).
  reflexivity.
Defined.

(** * More on the marker *)

Section IndexOccurrence.

#[local] Arguments HasPrefix : simpl never.

Lemma Index_none (s sub : string) :
  Index s sub = -1 ->
  forall j, HasPrefix (drop_bytes j s) sub = false.
Proof.
  induction s as [|c s IH]; cbn [Index].
  - destruct (HasPrefix EmptyString sub) eqn:E; [discriminate |].
    intros _ [|j]; exact E.
  - destruct (HasPrefix (String c s) sub) eqn:E; [discriminate |].
    destruct (Z.eqb_spec (Index s sub) (-1)) as [Hi|Hi].
    + intros _ [|j]; [exact E | exact (IH Hi j)].
    + pose proof (Index_ge s sub). lia.
Qed.

Lemma Index_some (s sub : string) :
  Index s sub <> -1 ->
  HasPrefix (slice_from s (Index s sub)) sub = true /\
  forall j, (j < Z.to_nat (Index s sub))%nat ->
            HasPrefix (drop_bytes j s) sub = false.
Proof.
  unfold slice_from. induction s as [|c s IH]; cbn [Index].
  - destruct (HasPrefix EmptyString sub) eqn:E; [|congruence].
    intros _. split; [exact E | intros j Hj; simpl in Hj; lia].
  - destruct (HasPrefix (String c s) sub) eqn:E.
    + intros _. split; [exact E | intros j Hj; simpl in Hj; lia].
    + destruct (Z.eqb_spec (Index s sub) (-1)) as [Hi|Hi]; [congruence |].
      intros _. destruct (IH Hi) as [Hat Hbefore].
      pose proof (Index_ge s sub).
      replace (Z.to_nat (Index s sub + 1)) with (S (Z.to_nat (Index s sub))) by lia.
      split; [exact Hat |].
      intros [|j] Hj; [exact E |]. apply Hbefore. lia.
Qed.

End IndexOccurrence.

(** X15. [Index] finds the first occurrence: where it is not [-1], the
    substring starts at the offset, within the string, and at no offset
    before; where it is [-1], the substring starts nowhere. *)
Theorem Index_first_occurrence (s sub : string) :
  (Index s sub = -1 ->
   forall j, HasPrefix (drop_bytes j s) sub = false) /\
  (Index s sub <> -1 ->
   0 <= Index s sub /\ Index s sub + len sub <= len s /\
   HasPrefix (slice_from s (Index s sub)) sub = true /\
   forall j, (j < Z.to_nat (Index s sub))%nat ->
             HasPrefix (drop_bytes j s) sub = false).
Proof.
  split; [apply Index_none |].
  intros H. destruct (Index_found s sub H) as [H0 H1].
  destruct (Index_some s sub H) as [H2 H3]. auto.
Qed.

Lemma Index_first_occurrence_witness :
  Index "06:38:17 ERR validating" "ERR " = 9 /\
  HasPrefix (slice_from "06:38:17 ERR validating" 9) "ERR " = true /\
  HasPrefix (drop_bytes 3 "06:38:17 ERR validating") "ERR " = false /\
  HasPrefix (drop_bytes 30 "no marker here") "ERR " = false.
Proof.
  assert (H9 : Index "06:38:17 ERR validating" "ERR " = 9) by reflexivity.
  assert (Hne : Index "06:38:17 ERR validating" "ERR " <> -1)
    by (rewrite H9; discriminate).
  destruct (proj2 (Index_first_occurrence "06:38:17 ERR validating" "ERR ") Hne)
    as (_ & _ & Hat & Hbefore).
  split; [exact H9 |]. split; [exact Hat |]. split.
  - apply Hbefore. rewrite H9. vm_compute. lia.
  - apply (proj1 (Index_first_occurrence "no marker here" "ERR ")). reflexivity.
Defined.

Lemma summary_without_marker_line (output : string) :
  has_marker_line output = false ->
  extractErrorMessage output = unknownValidationError.
Proof.
  unfold has_marker_line, extractErrorMessage.
  induction (Split output LF) as [|line rest IH]; [reflexivity |].
  rewrite extract_loop_step. cbn [existsb]. intros H.
  apply orb_false_elim in H as [Hl Hr]. rewrite Hl. exact (IH Hr).
Qed.

(** X16. In [server/main.go] a failed validation whose output has the
    marker but on no line the marker with a space after it, as in
    [ERROR], is answered as a validation failure with the fixed string as
    its error. *)
Theorem bare_marker_failure (w : World) (res : CmdResult) (err : string) :
  validate_run (trace Server.validateFiles w) = Some res ->
  Err res = Some err ->
  Contains (Combined res) "ERR" = true ->
  has_marker_line (Combined res) = false ->
  exists useCase,
    reply Server.validateFiles w =
      Some (400,
            {| Success := false; Message := "Validation failed";
               Output := Combined res; UseCase := useCase;
               Error := "Unknown validation error" |}).
Proof.
  run_handler; intros; simplify_eq;
    try congruence;
    rewrite summary_without_marker_line by assumption; eauto.
Qed.

Lemma bare_marker_failure_witness :
  exists useCase,
    reply Server.validateFiles (world wiringOnly (exited1 "ERROR: boom")) =
      Some (400,
            {| Success := false; Message := "Validation failed";
               Output := "ERROR: boom"; UseCase := useCase;
               Error := "Unknown validation error" |}).
Proof.
  apply (bare_marker_failure (world wiringOnly (exited1 "ERROR: boom"))
           (exited1 "ERROR: boom") "exit status 1");
    vm_compute; reflexivity.
Defined.
